(** * Contact form (src/App.jsx): form state, AI polish action, submit action

    A shallow embedding of the [App] component's two event handlers,
    [handleAiPolish] and [handleSubmit], together with the part of the
    JavaScript runtime they rely on (string trimming, truthiness,
    [try]/[catch]/[finally], [Date.prototype.toISOString]).  The three
    external services (generative-text model, document store, mail relay)
    are an environment that answers each call with a value or a thrown
    error; every call is recorded, in order, with the form state that is
    on screen while the call is outstanding. *)

From Stdlib Require Import List NArith ZArith Bool Ascii String Lia.
Import ListNotations.

(** ** JavaScript strings *)

Module Js.

(** A JavaScript string is a sequence of UTF-16 code units. *)
Definition code_unit := N.
Definition jsstring := list code_unit.

(** String literals of the source are all ASCII. *)
Definition lit (s : string) : jsstring :=
  map N_of_ascii (list_ascii_of_string s).

(** The empty string literal. *)
Definition emptyString : jsstring := [].

Definition jsstring_eq_dec (a b : jsstring) : {a = b} + {a <> b} :=
  list_eq_dec N.eq_dec a b.

(** ECMAScript WhiteSpace and LineTerminator code points: what
    [String.prototype.trim] strips.  All of them lie in the Basic
    Multilingual Plane, hence are single code units. *)
Definition isWhiteSpace (c : code_unit) : bool :=
  ((c =? 0x09) || (c =? 0x0A) || (c =? 0x0B) || (c =? 0x0C) || (c =? 0x0D)
   || (c =? 0x20) || (c =? 0xA0) || (c =? 0x1680)
   || ((0x2000 <=? c) && (c <=? 0x200A))
   || (c =? 0x2028) || (c =? 0x2029) || (c =? 0x202F) || (c =? 0x205F)
   || (c =? 0x3000) || (c =? 0xFEFF))%N.

Fixpoint trimStart (s : jsstring) : jsstring :=
  match s with
  | [] => []
  | c :: s' => if isWhiteSpace c then trimStart s' else s
  end.

Definition trimEnd (s : jsstring) : jsstring := rev (trimStart (rev s)).

(** [s.trim()] *)
Definition trim (s : jsstring) : jsstring := trimEnd (trimStart s).

(** A string is blank when it is empty or made of white space only. *)
Definition blank (s : jsstring) : bool := forallb isWhiteSpace s.

(** Truthiness of a string: only the empty string is falsy. *)
Definition truthy (s : jsstring) : bool :=
  match s with [] => false | _ :: _ => true end.

(** A value that is either [undefined] ([None]) or a string, as read from
    [import.meta.env] or from the [message] property of a thrown object. *)
Definition maybe_string := option jsstring.

Definition truthy_opt (v : maybe_string) : bool :=
  match v with None => false | Some s => truthy s end.

(** [v || d] with a string literal on the right. *)
Definition or_else (v : maybe_string) (d : jsstring) : jsstring :=
  match v with
  | Some s => if truthy s then s else d
  | None => d
  end.

End Js.

(** ** The part of [Date] the submit action uses *)

Module JsDate.
Import Js.
Local Open Scope Z_scope.

(** A time value: milliseconds since 1970-01-01T00:00:00Z, as [new Date()]
    reads it from the clock. *)
Definition time_value := Z.

Definition msPerDay : Z := 86400000.

Definition Day (t : time_value) : Z := t / msPerDay.

Definition HourFromTime (t : time_value) : Z := (t / 3600000) mod 24.
Definition MinFromTime (t : time_value) : Z := (t / 60000) mod 60.
Definition SecFromTime (t : time_value) : Z := (t / 1000) mod 60.
Definition msFromTime (t : time_value) : Z := t mod 1000.

Definition DaysInYear (y : Z) : Z :=
  if (y mod 4 =? 0) && negb (y mod 100 =? 0) || (y mod 400 =? 0)
  then 366 else 365.

(** Day number of 1 January of year [y]. *)
Definition DayFromYear (y : Z) : Z :=
  365 * (y - 1970) + (y - 1969) / 4 - (y - 1901) / 100 + (y - 1601) / 400.

(** The year a day number falls in, computed by 400-year eras that start
    on 1 March: [doe] is the day of the era, [yoe] the year of the era,
    [doy] the day of that year counted from 1 March, [mp] the month
    counted from March (10 and 11 are January and February of the next
    calendar year). *)
Definition doe (day : Z) : Z := (day + 719468) mod 146097.
Definition era (day : Z) : Z := (day + 719468) / 146097.
Definition yoe (day : Z) : Z :=
  let e := doe day in (e - e / 1460 + e / 36524 - e / 146096) / 365.
Definition doy (day : Z) : Z :=
  let y := yoe day in doe day - (365 * y + y / 4 - y / 100).
Definition mp (day : Z) : Z := (5 * doy day + 2) / 153.

Definition year_of_day (day : Z) : Z :=
  yoe day + era day * 400 + (if 10 <=? mp day then 1 else 0).

(** The largest [y] with [DayFromYear y <= Day t]. *)
Definition YearFromTime (t : time_value) : Z := year_of_day (Day t).

Definition InLeapYear (t : time_value) : Z :=
  if DaysInYear (YearFromTime t) =? 366 then 1 else 0.

Definition DayWithinYear (t : time_value) : Z :=
  Day t - DayFromYear (YearFromTime t).

(** Month number, 0 (January) to 11 (December). *)
Definition MonthFromTime (t : time_value) : Z :=
  let d := DayWithinYear t in
  let leap := InLeapYear t in
  if d <? 31 then 0
  else if d <? 59 + leap then 1
  else if d <? 90 + leap then 2
  else if d <? 120 + leap then 3
  else if d <? 151 + leap then 4
  else if d <? 181 + leap then 5
  else if d <? 212 + leap then 6
  else if d <? 243 + leap then 7
  else if d <? 273 + leap then 8
  else if d <? 304 + leap then 9
  else if d <? 334 + leap then 10
  else 11.

(** Day of the month, 1 to 31. *)
Definition DateFromTime (t : time_value) : Z :=
  let d := DayWithinYear t in
  let leap := InLeapYear t in
  match MonthFromTime t with
  | 0 => d + 1
  | 1 => d - 30
  | 2 => d - 58 - leap
  | 3 => d - 89 - leap
  | 4 => d - 119 - leap
  | 5 => d - 150 - leap
  | 6 => d - 180 - leap
  | 7 => d - 211 - leap
  | 8 => d - 242 - leap
  | 9 => d - 272 - leap
  | 10 => d - 303 - leap
  | _ => d - 333 - leap
  end.

(** The character of the last decimal digit of [d]. *)
Definition digit (d : Z) : code_unit := Z.to_N (48 + d mod 10).

(** Decimal representation on exactly [k] digits, zero padded. *)
Fixpoint pad (k : nat) (n : Z) : jsstring :=
  match k with
  | O => []
  | S k' => pad k' (n / 10) ++ [digit n]
  end.

(** The number a string of decimal digits denotes. *)
Definition decimal_value (s : jsstring) : Z :=
  fold_left (fun acc c => 10 * acc + (Z.of_N c - 48)) s 0.

(** Years 0 to 9999 print on four digits, the others as a sign and six. *)
Definition year_string (y : Z) : jsstring :=
  if (0 <=? y) && (y <=? 9999) then pad 4 y
  else (if y <? 0 then lit "-" else lit "+") ++ pad 6 (Z.abs y).

(** [new Date(t).toISOString()] : YYYY-MM-DDTHH:mm:ss.sssZ *)
Definition toISOString (t : time_value) : jsstring :=
  year_string (YearFromTime t) ++ lit "-" ++ pad 2 (MonthFromTime t + 1)
  ++ lit "-" ++ pad 2 (DateFromTime t)
  ++ lit "T" ++ pad 2 (HourFromTime t)
  ++ lit ":" ++ pad 2 (MinFromTime t)
  ++ lit ":" ++ pad 2 (SecFromTime t)
  ++ lit "." ++ pad 3 (msFromTime t) ++ lit "Z".

End JsDate.

Import Js JsDate.

(** ** Form state (the six [useState] cells of [App]) *)

Inductive StatusType : Type := success | error.

Record StatusMessage : Type := mkStatus {
  type : StatusType;
  text : jsstring
}.

Record FormState : Type := mkForm {
  name : jsstring;
  email : jsstring;
  message : jsstring;
  isPolishing : bool;
  isSubmitting : bool;
  status : option StatusMessage   (* [None] is [null] *)
}.

(** The [useState] defaults of the first render. *)
Definition initialState : FormState :=
  mkForm emptyString emptyString emptyString false false None.

(** ** The outside world *)

(** A thrown value is an object whose [message] property is a string or is
    missing: [Error] instances of the model and store clients, and the
    response-status object the mail relay rejects with, which has none. *)
Record Thrown : Type := mkThrown { err_message : maybe_string }.

Inductive Completion (A : Type) : Type :=
| Normal (a : A)
| Throw (e : Thrown).
Arguments Normal {A} a.
Arguments Throw {A} e.

(** What [generateContent] resolves to; [response.text()] returns the text
    or throws (a blocked response). *)
Record GenerateContentResult : Type := mkResult {
  response_text : Completion jsstring
}.

(** The document handed to [addDoc]. *)
Record MessageDoc : Type := mkDoc {
  doc_name : jsstring;
  doc_email : jsstring;
  doc_message : jsstring;
  createdAt : jsstring
}.

(** The variable map handed to [emailjs.send]. *)
Record TemplateParams : Type := mkParams {
  from_name : jsstring;
  from_email : jsstring;
  tpl_message : jsstring
}.

(** Calls that leave the component.  Building a client handle
    ([new GoogleGenerativeAI(apiKey)], [getGenerativeModel({ model })],
    [collection(db, path)]) performs no input or output; its arguments are
    carried by the call made through the handle. *)
Inductive Call : Type :=
| GenerateContent (apiKey : maybe_string) (model prompt : jsstring)
| AddDoc (path : jsstring) (doc : MessageDoc)
| EmailSend (serviceId templateId : maybe_string) (params : TemplateParams)
            (publicKey : maybe_string).

Definition is_store_write (c : Call) : bool :=
  match c with AddDoc _ _ => true | _ => false end.
Definition is_email_send (c : Call) : bool :=
  match c with EmailSend _ _ _ _ => true | _ => false end.

(** Environment configuration, the clock, and how each service answers. *)
Record Env : Type := mkEnv {
  VITE_GOOGLE_GENERATIVE_AI_API_KEY : maybe_string;
  VITE_EMAILJS_SERVICE_ID : maybe_string;
  VITE_EMAILJS_TEMPLATE_ID : maybe_string;
  VITE_EMAILJS_PUBLIC_KEY : maybe_string;
  clock : time_value;
  generateContent :
    maybe_string -> jsstring -> jsstring -> Completion GenerateContentResult;
  addDoc : jsstring -> MessageDoc -> Completion unit;
  emailjs_send :
    maybe_string -> maybe_string -> TemplateParams -> maybe_string ->
    Completion unit
}.

(** What a handler can change: the form state, the record of outbound
    calls (each with the form state current when it was issued), and the
    submit event's [defaultPrevented] flag. *)
Record World : Type := mkWorld {
  form : FormState;
  outbound : list (Call * FormState);
  defaultPrevented : bool
}.

Definition calls (w : World) : list Call := map fst (outbound w).

(** ** Handler monad: environment, world, and abrupt completion *)

Definition M (A : Type) : Type := Env -> World -> Completion A * World.

Definition ret {A} (a : A) : M A := fun _ w => (Normal a, w).

Definition bind {A B} (m : M A) (k : A -> M B) : M B :=
  fun env w =>
    match m env w with
    | (Normal a, w') => k a env w'
    | (Throw e, w') => (Throw e, w')
    end.

Notation "x <- m ;; k" := (bind m (fun x => k))
  (at level 61, m at next level, right associativity).
Notation "m ;; k" := (bind m (fun _ => k))
  (at level 61, right associativity).

(** [try { body } catch (err) { handler } finally { cleanup }]: the cleanup
    runs on every path; if it completes normally the completion of the
    body, or of the handler when the body threw, stands. *)
Definition try_catch_finally {A} (body : M A) (handler : Thrown -> M A)
    (cleanup : M unit) : M A :=
  fun env w =>
    let '(c1, w1) :=
      match body env w with
      | (Normal a, w') => (Normal a, w')
      | (Throw e, w') => handler e env w'
      end in
    match cleanup env w1 with
    | (Normal _, w2) => (c1, w2)
    | (Throw e, w2) => (Throw e, w2)
    end.

Definition update (f : FormState -> FormState) : M unit :=
  fun _ w => (Normal tt, mkWorld (f (form w)) (outbound w) (defaultPrevented w)).

Definition setName (v : jsstring) : M unit :=
  update (fun s => mkForm v (email s) (message s) (isPolishing s) (isSubmitting s) (status s)).
Definition setEmail (v : jsstring) : M unit :=
  update (fun s => mkForm (name s) v (message s) (isPolishing s) (isSubmitting s) (status s)).
Definition setMessage (v : jsstring) : M unit :=
  update (fun s => mkForm (name s) (email s) v (isPolishing s) (isSubmitting s) (status s)).
Definition setIsPolishing (v : bool) : M unit :=
  update (fun s => mkForm (name s) (email s) (message s) v (isSubmitting s) (status s)).
Definition setIsSubmitting (v : bool) : M unit :=
  update (fun s => mkForm (name s) (email s) (message s) (isPolishing s) v (status s)).
Definition setStatus (v : option StatusMessage) : M unit :=
  update (fun s => mkForm (name s) (email s) (message s) (isPolishing s) (isSubmitting s) v).

(** [e.preventDefault()] *)
Definition preventDefault : M unit :=
  fun _ w => (Normal tt, mkWorld (form w) (outbound w) true).

(** [import.meta.env.X] *)
Definition import_meta_env (var : Env -> maybe_string) : M maybe_string :=
  fun env w => (Normal (var env), w).

(** [new Date().toISOString()] *)
Definition new_Date_toISOString : M jsstring :=
  fun env w => (Normal (toISOString (clock env)), w).

(** [await] of an outbound call: record it, then take the service's answer. *)
Definition await {A} (c : Call) (answer : Env -> Completion A) : M A :=
  fun env w =>
    (answer env,
     mkWorld (form w) (outbound w ++ [(c, form w)]) (defaultPrevented w)).

(** [response.text()] *)
Definition response_text_call (r : GenerateContentResult) : M jsstring :=
  fun _ w => (response_text r, w).

(** ** The two handlers

    A handler is a closure over one render: [props] holds the state
    values it captured ([name], [email], [message]); the setters act on
    the world's current form state. *)

Definition polishPrompt (msg : jsstring) : jsstring :=
  lit "Rewrite the following text to be professional, polite, and concise: "
  ++ msg.

Definition handleAiPolish (props : FormState) : M unit :=
  if negb (truthy (trim (message props))) then ret tt
  else
    apiKey <- import_meta_env VITE_GOOGLE_GENERATIVE_AI_API_KEY ;;
    if negb (truthy_opt apiKey) then
      setStatus (Some (mkStatus error (lit "AI API key not configured.")))
    else
      (setIsPolishing true ;;
       setStatus None ;;
       try_catch_finally
         (let model := lit "gemini-pro" in
          let prompt := polishPrompt (message props) in
          result <- await (GenerateContent apiKey model prompt)
                      (fun env => generateContent env apiKey model prompt) ;;
          polishedText <- response_text_call result ;;
          if truthy polishedText then
            (setMessage (trim polishedText) ;;
             setStatus (Some (mkStatus success (lit "Message polished!"))))
          else ret tt)
         (fun err =>
            setStatus (Some (mkStatus error
              (or_else (err_message err) (lit "AI polish failed.")))))
         (setIsPolishing false)).

Definition handleSubmit (props : FormState) : M unit :=
  preventDefault ;;
  if negb (truthy (trim (name props)))
     || negb (truthy (trim (email props)))
     || negb (truthy (trim (message props)))
  then
    setStatus (Some (mkStatus error (lit "Please fill in all fields.")))
  else
    (setIsSubmitting true ;;
     setStatus None ;;
     try_catch_finally
       ((* Save to Firebase *)
        now <- new_Date_toISOString ;;
        let doc := mkDoc (trim (name props)) (trim (email props))
                         (trim (message props)) now in
        await (AddDoc (lit "messages") doc)
          (fun env => addDoc env (lit "messages") doc) ;;
        (* Send via EmailJS *)
        serviceId <- import_meta_env VITE_EMAILJS_SERVICE_ID ;;
        templateId <- import_meta_env VITE_EMAILJS_TEMPLATE_ID ;;
        let params := mkParams (trim (name props)) (trim (email props))
                               (trim (message props)) in
        publicKey <- import_meta_env VITE_EMAILJS_PUBLIC_KEY ;;
        await (EmailSend serviceId templateId params publicKey)
          (fun env => emailjs_send env serviceId templateId params publicKey) ;;
        setStatus (Some (mkStatus success (lit "Message sent successfully!"))) ;;
        setName emptyString ;;
        setEmail emptyString ;;
        setMessage emptyString)
       (fun err =>
          setStatus (Some (mkStatus error
            (or_else (err_message err) (lit "Failed to send message.")))))
       (setIsSubmitting false)).

(** One invocation of a handler from the render showing [st]: the handler
    closes over [st], no call has been made yet, the event is fresh. *)
Definition invoke (h : FormState -> M unit) (env : Env) (st : FormState)
  : Completion unit * World :=
  h st env (mkWorld st [] false).

(** The world an invocation leaves behind. *)
Definition after (h : FormState -> M unit) (env : Env) (st : FormState)
  : World :=
  snd (invoke h env st).

(** The document and the mail parameters a submission of [st] builds. *)
Definition submittedDoc (env : Env) (st : FormState) : MessageDoc :=
  mkDoc (trim (name st)) (trim (email st)) (trim (message st))
        (toISOString (clock env)).

Definition submittedParams (st : FormState) : TemplateParams :=
  mkParams (trim (name st)) (trim (email st)) (trim (message st)).

Definition storeWrite (env : Env) (st : FormState) : Call :=
  AddDoc (lit "messages") (submittedDoc env st).

Definition emailSend (env : Env) (st : FormState) : Call :=
  EmailSend (VITE_EMAILJS_SERVICE_ID env) (VITE_EMAILJS_TEMPLATE_ID env)
            (submittedParams st) (VITE_EMAILJS_PUBLIC_KEY env).

Definition polishCall (env : Env) (st : FormState) : Call :=
  GenerateContent (VITE_GOOGLE_GENERATIVE_AI_API_KEY env) (lit "gemini-pro")
                  (polishPrompt (message st)).

(** How the services answer the calls of one invocation. *)
Definition storeAnswer (env : Env) (st : FormState) : Completion unit :=
  addDoc env (lit "messages") (submittedDoc env st).

Definition emailAnswer (env : Env) (st : FormState) : Completion unit :=
  emailjs_send env (VITE_EMAILJS_SERVICE_ID env) (VITE_EMAILJS_TEMPLATE_ID env)
               (submittedParams st) (VITE_EMAILJS_PUBLIC_KEY env).

Definition polishAnswer (env : Env) (st : FormState)
  : Completion GenerateContentResult :=
  generateContent env (VITE_GOOGLE_GENERATIVE_AI_API_KEY env)
                  (lit "gemini-pro") (polishPrompt (message st)).

(** Validation of the submit action, and the two guards of the polish
    action, as the handlers test them. *)
Definition passesValidation (st : FormState) : bool :=
  truthy (trim (name st)) && truthy (trim (email st))
  && truthy (trim (message st)).

Definition passesPolishGuards (env : Env) (st : FormState) : bool :=
  truthy (trim (message st))
  && truthy_opt (VITE_GOOGLE_GENERATIVE_AI_API_KEY env).

(** The form while a submission, or a polish, of [st] is in flight. *)
Definition submitting (st : FormState) : FormState :=
  mkForm (name st) (email st) (message st) (isPolishing st) true None.

Definition polishing (st : FormState) : FormState :=
  mkForm (name st) (email st) (message st) true (isSubmitting st) None.

(** [st] with another status line. *)
Definition withStatus (st : FormState) (s : option StatusMessage) : FormState :=
  mkForm (name st) (email st) (message st) (isPolishing st) (isSubmitting st) s.

Definition errorStatus (txt : jsstring) : option StatusMessage :=
  Some (mkStatus error txt).

Definition successStatus (txt : jsstring) : option StatusMessage :=
  Some (mkStatus success txt).

(** Concrete environments and states used in the examples below. *)
Definition okResult (txt : string) : GenerateContentResult :=
  mkResult (Normal (lit txt)).

Definition envAllOk : Env :=
  mkEnv (Some (lit "key-123")) (Some (lit "service_1")) (Some (lit "template_1"))
        (Some (lit "public_1")) 1700000000000%Z
        (fun _ _ _ => Normal (okResult "  Dear team, thank you.  "))
        (fun _ _ => Normal tt)
        (fun _ _ _ _ => Normal tt).

Definition filledState : FormState :=
  mkForm (lit " Ada ") (lit "ada@example.org") (lit "hello there ")
         false false None.

(** An error that carries no message, and one that does. *)
Definition bareError : Thrown := mkThrown None.
Definition quotaError : Thrown := mkThrown (Some (lit "Quota exceeded")).

(** The store rejects the write; the relay would accept. *)
Definition envStoreDown : Env :=
  mkEnv (Some (lit "key-123")) (Some (lit "service_1")) (Some (lit "template_1"))
        (Some (lit "public_1")) 1700000000000%Z
        (fun _ _ _ => Normal (okResult "Dear team, thank you."))
        (fun _ _ => Throw bareError)
        (fun _ _ _ _ => Normal tt).

(** The store accepts the write; the relay rejects the send. *)
Definition envMailDown : Env :=
  mkEnv (Some (lit "key-123")) (Some (lit "service_1")) (Some (lit "template_1"))
        (Some (lit "public_1")) 1700000000000%Z
        (fun _ _ _ => Normal (okResult "Dear team, thank you."))
        (fun _ _ => Normal tt)
        (fun _ _ _ _ => Throw quotaError).

(** The store accepts the write; the relay rejects with an object that
    has no message. *)
Definition envMailBare : Env :=
  mkEnv (Some (lit "key-123")) (Some (lit "service_1")) (Some (lit "template_1"))
        (Some (lit "public_1")) 1700000000000%Z
        (fun _ _ _ => Normal (okResult "Dear team, thank you."))
        (fun _ _ => Normal tt)
        (fun _ _ _ _ => Throw bareError).

(** No API key in the environment. *)
Definition envNoKey : Env :=
  mkEnv None (Some (lit "service_1")) (Some (lit "template_1"))
        (Some (lit "public_1")) 1700000000000%Z
        (fun _ _ _ => Normal (okResult "Dear team, thank you."))
        (fun _ _ => Normal tt)
        (fun _ _ _ _ => Normal tt).

(** The model call throws an error without a message. *)
Definition envModelDown : Env :=
  mkEnv (Some (lit "key-123")) (Some (lit "service_1")) (Some (lit "template_1"))
        (Some (lit "public_1")) 1700000000000%Z
        (fun _ _ _ => Throw bareError)
        (fun _ _ => Normal tt)
        (fun _ _ _ _ => Normal tt).

(** The model answers with the empty text. *)
Definition envEmptyAnswer : Env :=
  mkEnv (Some (lit "key-123")) (Some (lit "service_1")) (Some (lit "template_1"))
        (Some (lit "public_1")) 1700000000000%Z
        (fun _ _ _ => Normal (mkResult (Normal emptyString)))
        (fun _ _ => Normal tt)
        (fun _ _ _ _ => Normal tt).

(** The model answers with white space only. *)
Definition envBlankAnswer : Env :=
  mkEnv (Some (lit "key-123")) (Some (lit "service_1")) (Some (lit "template_1"))
        (Some (lit "public_1")) 1700000000000%Z
        (fun _ _ _ => Normal (okResult "   "))
        (fun _ _ => Normal tt)
        (fun _ _ _ _ => Normal tt).

(** A form with white space only in its fields. *)
Definition blankState : FormState :=
  mkForm (lit "  ") emptyString (lit " ") false false None.


(** ** The rendered form (the JSX [App] returns) *)

Inductive Icon : Type := Loader2 | Sparkles | Send.

(** The status paragraph: its class and its text. *)
Record StatusLine : Type := mkStatusLine {
  className : jsstring;
  children : jsstring
}.

(** The parts of the markup that depend on the state. *)
Record View : Type := mkView {
  nameInput_value : jsstring;
  emailInput_value : jsstring;
  messageArea_value : jsstring;
  polishButton_disabled : bool;
  polishButton_icon : Icon;
  statusLine : option StatusLine;
  submitButton_disabled : bool;
  submitButton_icon : Icon
}.

Definition render (st : FormState) : View :=
  mkView
    (name st)
    (email st)
    (message st)
    (isPolishing st || negb (truthy (trim (message st))))
    (if isPolishing st then Loader2 else Sparkles)
    (match status st with
     | None => None
     | Some s =>
         Some (mkStatusLine
                 (lit "text-sm "
                  ++ match type s with
                     | success => lit "text-emerald-600"
                     | error => lit "text-rose-600"
                     end)
                 (text s))
     end)
    (isSubmitting st)
    (if isSubmitting st then Loader2 else Send).

(** ** Events of the form *)

(** What the user can do: type in one of the three fields, click the
    polish button, submit the form. *)
Inductive UiEvent : Type :=
| ChangeName (value : jsstring)
| ChangeEmail (value : jsstring)
| ChangeMessage (value : jsstring)
| ClickPolish
| SubmitForm.

(** One event, delivered to the handlers of the current render.  A
    disabled button delivers nothing; a submit event is a fresh event
    object.  The handler runs to completion before the next event. *)
Definition dispatch (env : Env) (ev : UiEvent) (w : World) : World :=
  let st := form w in
  match ev with
  | ChangeName v => snd (setName v env w)
  | ChangeEmail v => snd (setEmail v env w)
  | ChangeMessage v => snd (setMessage v env w)
  | ClickPolish =>
      if polishButton_disabled (render st) then w
      else snd (handleAiPolish st env w)
  | SubmitForm =>
      if submitButton_disabled (render st) then w
      else snd (handleSubmit st env (mkWorld st (outbound w) false))
  end.

(** A session: events in order, each with the environment of its time. *)
Fixpoint session (evs : list (Env * UiEvent)) (w : World) : World :=
  match evs with
  | [] => w
  | (env, ev) :: rest => session rest (dispatch env ev w)
  end.

(** The page as first rendered. *)
Definition initialWorld : World := mkWorld initialState [] false.

(** ** Shape of a timestamp *)

Definition isDigit (c : code_unit) : bool := ((48 <=? c) && (c <=? 57))%N.

Definition twoDigits (a b : code_unit) : Z := decimal_value [a; b].

(** YYYY-MM-DDTHH:mm:ss.sssZ with a month from 01 to 12, a day from 01 to
    31, an hour up to 23, minutes and seconds up to 59. *)
Definition isoTimestamp (s : jsstring) : bool :=
  match s with
  | [y1; y2; y3; y4; dash1; mo1; mo2; dash2; d1; d2; tee;
     h1; h2; colon1; mi1; mi2; colon2; s1; s2; dot; f1; f2; f3; zed] =>
      forallb isDigit
        [y1; y2; y3; y4; mo1; mo2; d1; d2; h1; h2; mi1; mi2; s1; s2; f1; f2; f3]
      && (dash1 =? 45)%N && (dash2 =? 45)%N && (tee =? 84)%N
      && (colon1 =? 58)%N && (colon2 =? 58)%N && (dot =? 46)%N
      && (zed =? 90)%N
      && (1 <=? twoDigits mo1 mo2)%Z && (twoDigits mo1 mo2 <=? 12)%Z
      && (1 <=? twoDigits d1 d2)%Z && (twoDigits d1 d2 <=? 31)%Z
      && (twoDigits h1 h2 <=? 23)%Z
      && (twoDigits mi1 mi2 <=? 59)%Z
      && (twoDigits s1 s2 <=? 59)%Z
  | _ => false
  end.

(** A text with nothing to trim. *)
Definition trimmed (s : jsstring) : Prop := trim s = s.

(** A field as the services should get it: not empty, nothing to trim. *)
Definition cleanField (s : jsstring) : Prop := s <> [] /\ trimmed s.

Definition is_model_call (c : Call) : bool :=
  match c with GenerateContent _ _ _ => true | _ => false end.

(** Whether a call completed normally. *)
Definition isNormal {A : Type} (c : Completion A) : bool :=
  match c with Normal _ => true | Throw _ => false end.

(** What each service may be handed by a submission. *)
Definition cleanCall (c : Call) : Prop :=
  match c with
  | AddDoc path doc =>
      path = lit "messages" /\ cleanField (doc_name doc)
      /\ cleanField (doc_email doc) /\ cleanField (doc_message doc)
  | EmailSend _ _ params _ =>
      cleanField (from_name params) /\ cleanField (from_email params)
      /\ cleanField (tpl_message params)
  | GenerateContent _ _ _ => False
  end.

(** What the model may be handed by a polish: a usable key, the model
    name, and the prompt built from a message that is not blank. *)
Definition goodCall (c : Call) : Prop :=
  match c with
  | GenerateContent key model prompt =>
      truthy_opt key = true /\ model = lit "gemini-pro"
      /\ exists msg, blank msg = false /\ prompt = polishPrompt msg
  | _ => cleanCall c
  end.

(** The email send [c] repeats the fields of the document [doc]. *)
Definition mailsDocument (c : Call) (doc : MessageDoc) : Prop :=
  match c with
  | EmailSend _ _ params _ =>
      from_name params = doc_name doc /\ from_email params = doc_email doc
      /\ tpl_message params = doc_message doc
  | _ => False
  end.

(** The filled-in form once its message has been polished. *)
Definition polishedState : FormState :=
  mkForm (lit " Ada ") (lit "ada@example.org") (lit "Dear team, thank you.")
         false false None.

(** A session that fills the form in, polishes the message, fails to send
    it and then sends it. *)
Definition fillAndSend : list (Env * UiEvent) :=
  [ (envAllOk, ChangeName (lit " Ada "));
    (envAllOk, ChangeEmail (lit "ada@example.org"));
    (envAllOk, ChangeMessage (lit "hello there "));
    (envAllOk, ClickPolish);
    (envMailDown, SubmitForm);
    (envAllOk, SubmitForm) ].

(** ** Reading a timestamp back *)

(** What [toISOString] prints after the year. *)
Definition isoTail (t : time_value) : jsstring :=
  lit "-" ++ pad 2 (MonthFromTime t + 1)
  ++ lit "-" ++ pad 2 (DateFromTime t)
  ++ lit "T" ++ pad 2 (HourFromTime t)
  ++ lit ":" ++ pad 2 (MinFromTime t)
  ++ lit ":" ++ pad 2 (SecFromTime t)
  ++ lit "." ++ pad 3 (msFromTime t) ++ lit "Z".

(** Days before the first day of month [m] (0 to 11). *)
Definition dayOffsetOfMonth (m leap : Z) : Z :=
  match m with
  | 0 => 0
  | 1 => 31
  | 2 => 59 + leap
  | 3 => 90 + leap
  | 4 => 120 + leap
  | 5 => 151 + leap
  | 6 => 181 + leap
  | 7 => 212 + leap
  | 8 => 243 + leap
  | 9 => 273 + leap
  | 10 => 304 + leap
  | _ => 334 + leap
  end%Z.

(** Day number of a calendar date; [month] is 0 to 11. *)
Definition MakeDay (year month date : Z) : Z :=
  (DayFromYear year
   + dayOffsetOfMonth month (if DaysInYear year =? 366 then 1 else 0)
   + date - 1)%Z.

Definition MakeTime (hour min sec ms : Z) : Z :=
  (hour * 3600000 + min * 60000 + sec * 1000 + ms)%Z.

Definition MakeDate (day time : Z) : time_value :=
  (day * msPerDay + time)%Z.

(** The part after the year, -MM-DDTHH:mm:ss.sssZ, checked as
    [isoTimestamp] checks it and turned into a time value. *)
Definition parseAfterYear (year : Z) (rest : jsstring) : option time_value :=
  match rest with
  | [_; mo1; mo2; _; d1; d2; _; h1; h2; _; mi1; mi2; _; s1; s2; _;
     f1; f2; f3; _] =>
      if isoTimestamp (lit "0000" ++ rest) then
        Some (MakeDate
                (MakeDay year (twoDigits mo1 mo2 - 1) (twoDigits d1 d2))
                (MakeTime (twoDigits h1 h2) (twoDigits mi1 mi2)
                          (twoDigits s1 s2) (decimal_value [f1; f2; f3])))
      else None
  | _ => None
  end.

(** The time value a timestamp in the format of [toISOString] denotes:
    a four-digit year, or a sign and a six-digit year (minus zero is not
    a year). *)
Definition parseISOString (s : jsstring) : option time_value :=
  match s with
  | [] => None
  | c :: s' =>
      if ((c =? 43) || (c =? 45))%N then
        match s' with
        | y1 :: y2 :: y3 :: y4 :: y5 :: y6 :: rest =>
            let y := decimal_value [y1; y2; y3; y4; y5; y6] in
            if forallb isDigit [y1; y2; y3; y4; y5; y6]
               && negb ((c =? 45)%N && (y =? 0)%Z)
            then parseAfterYear (if (c =? 45)%N then (- y)%Z else y) rest
            else None
        | _ => None
        end
      else
        match s with
        | y1 :: y2 :: y3 :: y4 :: rest =>
            if forallb isDigit [y1; y2; y3; y4]
            then parseAfterYear (decimal_value [y1; y2; y3; y4]) rest
            else None
        | _ => None
        end
  end.


(** A later reading of the clock, on a leap day, with the services up. *)
Definition envLater : Env :=
  mkEnv (Some (lit "key-123")) (Some (lit "service_1")) (Some (lit "template_1"))
        (Some (lit "public_1")) 1709251199999%Z
        (fun _ _ _ => Normal (okResult "Dear team, thank you."))
        (fun _ _ => Normal tt)
        (fun _ _ _ _ => Normal tt).

(** The model call throws an error that carries a message. *)
Definition envModelQuota : Env :=
  mkEnv (Some (lit "key-123")) (Some (lit "service_1")) (Some (lit "template_1"))
        (Some (lit "public_1")) 1700000000000%Z
        (fun _ _ _ => Throw quotaError)
        (fun _ _ => Normal tt)
        (fun _ _ _ _ => Normal tt).

(** * Properties *)

(** ** Trimming *)

Section TrimFacts.

Lemma blank_app (a b : jsstring) : blank (a ++ b) = blank a && blank b.
Proof. apply forallb_app. Qed.

Lemma blank_rev (s : jsstring) : blank (rev s) = blank s.
Proof.
  induction s as [|c s IH]; simpl; [reflexivity|].
  rewrite blank_app, IH. simpl. rewrite andb_true_r. apply andb_comm.
Qed.

Lemma trimStart_split (s : jsstring) :
  exists pre, s = pre ++ trimStart s /\ blank pre = true.
Proof.
  induction s as [|c s [pre [E B]]]; simpl.
  - exists []. split; reflexivity.
  - destruct (isWhiteSpace c) eqn:W.
    + exists (c :: pre). simpl. rewrite W, B. split; [congruence | reflexivity].
    + exists []. split; reflexivity.
Qed.

Lemma trimStart_head (s : jsstring) c r :
  trimStart s = c :: r -> isWhiteSpace c = false.
Proof.
  induction s as [|d s IH]; simpl; [discriminate|].
  destruct (isWhiteSpace d) eqn:W; [exact IH|]. congruence.
Qed.

Lemma trimStart_blank (s : jsstring) : trimStart s = [] <-> blank s = true.
Proof.
  induction s as [|c s IH]; simpl; [tauto|].
  destruct (isWhiteSpace c); simpl; [exact IH|]. split; discriminate.
Qed.

Lemma trimEnd_split (s : jsstring) :
  exists post, s = trimEnd s ++ post /\ blank post = true.
Proof.
  unfold trimEnd. destruct (trimStart_split (rev s)) as [pre [E B]].
  exists (rev pre). split.
  - rewrite <- rev_app_distr, <- E. symmetry. apply rev_involutive.
  - now rewrite blank_rev.
Qed.

Lemma trimEnd_blank (s : jsstring) : trimEnd s = [] <-> blank s = true.
Proof.
  unfold trimEnd. rewrite <- (blank_rev s), <- trimStart_blank.
  split; intro H.
  - apply (f_equal (@rev _)) in H. now rewrite rev_involutive in H.
  - now rewrite H.
Qed.

(** A string is empty after trimming exactly when it is blank. *)
Lemma trim_blank (s : jsstring) : trim s = [] <-> blank s = true.
Proof.
  unfold trim. rewrite trimEnd_blank.
  destruct (trimStart_split s) as [pre [E B]].
  rewrite E at 2. rewrite blank_app, B. simpl. tauto.
Qed.

Lemma truthy_nil (s : jsstring) : truthy s = false <-> s = [].
Proof. destruct s; simpl; split; congruence. Qed.

Lemma truthy_cons (s : jsstring) : truthy s = true <-> s <> [].
Proof. destruct s; simpl; split; congruence. Qed.

Lemma truthy_trim (s : jsstring) : truthy (trim s) = negb (blank s).
Proof.
  destruct (blank s) eqn:B; simpl.
  - apply truthy_nil, trim_blank, B.
  - destruct (truthy (trim s)) eqn:T; [reflexivity|].
    apply truthy_nil, trim_blank in T. congruence.
Qed.

(** [trim] cuts a blank prefix and a blank suffix and nothing else. *)
Lemma trim_split (s : jsstring) :
  exists pre post, s = pre ++ trim s ++ post
                   /\ blank pre = true /\ blank post = true.
Proof.
  destruct (trimStart_split s) as [pre [E B]].
  destruct (trimEnd_split (trimStart s)) as [post [E' B']].
  exists pre, post. unfold trim. rewrite <- E'. auto.
Qed.

(** What is left neither starts nor ends with white space. *)
Lemma trim_head (s : jsstring) c r : trim s = c :: r -> isWhiteSpace c = false.
Proof.
  unfold trim. intro H.
  destruct (trimEnd_split (trimStart s)) as [post [E _]].
  rewrite H in E. simpl in E. eapply trimStart_head; eauto.
Qed.

Lemma trim_last (s : jsstring) c r :
  trim s = r ++ [c] -> isWhiteSpace c = false.
Proof.
  unfold trim, trimEnd. intro H.
  apply (f_equal (@rev _)) in H. rewrite rev_involutive, rev_app_distr in H.
  simpl in H. eapply trimStart_head; eauto.
Qed.

Lemma trimStart_fixed (s : jsstring) :
  (forall c r, s = c :: r -> isWhiteSpace c = false) -> trimStart s = s.
Proof.
  destruct s as [|c r]; [reflexivity|]. intro H. simpl.
  now rewrite (H c r eq_refl).
Qed.

(** Trimming twice is trimming once: polishing or submitting an already
    trimmed text sends the same text. *)
Lemma trim_idempotent (s : jsstring) : trim (trim s) = trim s.
Proof.
  assert (S : trimStart (trim s) = trim s).
  { apply trimStart_fixed. intros c r. apply trim_head. }
  unfold trim at 1. rewrite S. unfold trimEnd.
  rewrite trimStart_fixed; [apply rev_involutive|].
  intros c r E. apply (trim_last s c (rev r)).
  rewrite <- (rev_involutive (trim s)), E. reflexivity.
Qed.

Lemma or_else_message (m d : jsstring) : m <> [] -> or_else (Some m) d = m.
Proof. destruct m; simpl; congruence. Qed.

Lemma or_else_no_message (v : maybe_string) (d : jsstring) :
  truthy_opt v = false -> or_else v d = d.
Proof. destruct v as [m|]; simpl; [intros ->|]; reflexivity. Qed.

End TrimFacts.

(** ** Dates *)

Section DateFacts.
Local Open Scope Z_scope.

Lemma doe_range d : 0 <= doe d <= 146096.
Proof. unfold doe. pose proof (Z.mod_pos_bound (d + 719468) 146097). lia. Qed.

Lemma day_decomp d : d + 719468 = 146097 * era d + doe d.
Proof. unfold era, doe. apply Z.div_mod. lia. Qed.

(** [year_of_day] is the year the day falls in: the day is on or after
    its 1 January and before the next one. *)
Lemma year_of_day_bounds d :
  DayFromYear (year_of_day d) <= d < DayFromYear (year_of_day d + 1).
Proof.
  unfold year_of_day, mp, doy, yoe, DayFromYear.
  pose proof (doe_range d). pose proof (day_decomp d).
  set (e := doe d) in *. set (r := era d) in *. cbv zeta.
  destruct (10 <=? _) eqn:E;
    [apply Z.leb_le in E | apply Z.leb_gt in E];
    Z.div_mod_to_equations; lia.
Qed.

Lemma DayFromYear_mono y : DayFromYear y < DayFromYear (y + 1).
Proof. unfold DayFromYear. Z.div_mod_to_equations. lia. Qed.

Lemma DayFromYear_le y y' : y <= y' -> DayFromYear y <= DayFromYear y'.
Proof. unfold DayFromYear. intro H. Z.div_mod_to_equations. lia. Qed.

(** No other year contains the day: [YearFromTime] is the year ECMAScript
    defines. *)
Lemma YearFromTime_unique t y :
  DayFromYear y <= Day t < DayFromYear (y + 1) -> y = YearFromTime t.
Proof.
  intros [L U]. unfold YearFromTime.
  pose proof (year_of_day_bounds (Day t)) as [L' U'].
  destruct (Z.lt_trichotomy y (year_of_day (Day t))) as [H|[H|H]]; [|exact H|].
  - pose proof (DayFromYear_le (y + 1) (year_of_day (Day t))). lia.
  - pose proof (DayFromYear_le (year_of_day (Day t) + 1) y). lia.
Qed.

Lemma leap_step_4 y :
  (y + 1 - 1969) / 4 = (y - 1969) / 4 + (if y mod 4 =? 0 then 1 else 0).
Proof.
  destruct (Z.eqb_spec (y mod 4) 0); Z.div_mod_to_equations; lia.
Qed.

Lemma leap_step_100 y :
  (y + 1 - 1901) / 100 = (y - 1901) / 100 + (if y mod 100 =? 0 then 1 else 0).
Proof.
  destruct (Z.eqb_spec (y mod 100) 0); Z.div_mod_to_equations; lia.
Qed.

Lemma leap_step_400 y :
  (y + 1 - 1601) / 400 = (y - 1601) / 400 + (if y mod 400 =? 0 then 1 else 0).
Proof.
  destruct (Z.eqb_spec (y mod 400) 0); Z.div_mod_to_equations; lia.
Qed.

Lemma mod_400_100 y : y mod 400 = 0 -> y mod 100 = 0.
Proof. intro H. Z.div_mod_to_equations. lia. Qed.

Lemma mod_100_4 y : y mod 100 = 0 -> y mod 4 = 0.
Proof. intro H. Z.div_mod_to_equations. lia. Qed.

Lemma DayFromYear_succ y : DayFromYear (y + 1) = DayFromYear y + DaysInYear y.
Proof.
  unfold DayFromYear, DaysInYear.
  rewrite leap_step_4, leap_step_100, leap_step_400.
  pose proof (mod_400_100 y) as H1. pose proof (mod_100_4 y) as H2.
  destruct (Z.eqb_spec (y mod 4) 0) as [E4|E4];
    destruct (Z.eqb_spec (y mod 100) 0) as [E100|E100];
    destruct (Z.eqb_spec (y mod 400) 0) as [E400|E400];
    cbn [andb orb negb]; try lia;
    try (exfalso; auto; fail).
Qed.

Lemma DayWithinYear_range t :
  0 <= DayWithinYear t <= 364 + InLeapYear t.
Proof.
  unfold DayWithinYear, InLeapYear, YearFromTime.
  pose proof (year_of_day_bounds (Day t)) as B.
  rewrite DayFromYear_succ in B.
  assert (DaysInYear (year_of_day (Day t)) = 365 \/ DaysInYear (year_of_day (Day t)) = 366) as [D|D].
  { unfold DaysInYear. destruct (_ || _); auto. }
  all: rewrite D in *; simpl; lia.
Qed.

Lemma MonthFromTime_range t : 0 <= MonthFromTime t <= 11.
Proof.
  unfold MonthFromTime. cbv zeta.
  repeat (destruct (_ <? _); [lia|]). lia.
Qed.

Lemma DateFromTime_range t : 1 <= DateFromTime t <= 31.
Proof.
  unfold DateFromTime, MonthFromTime.
  pose proof (DayWithinYear_range t) as R.
  assert (InLeapYear t = 0 \/ InLeapYear t = 1) as L
    by (unfold InLeapYear; destruct (_ =? _); auto).
  revert R L. generalize (DayWithinYear t) (InLeapYear t). intros d l R L.
  cbv zeta.
  repeat match goal with
         | |- context [?a <? ?b] =>
             destruct (Z.ltb_spec a b); [cbv iota; lia|]
         end.
  cbv iota. lia.
Qed.

Lemma HourFromTime_range t : 0 <= HourFromTime t <= 23.
Proof. unfold HourFromTime. pose proof (Z.mod_pos_bound (t / 3600000) 24). lia. Qed.

Lemma MinFromTime_range t : 0 <= MinFromTime t <= 59.
Proof. unfold MinFromTime. pose proof (Z.mod_pos_bound (t / 60000) 60). lia. Qed.

Lemma SecFromTime_range t : 0 <= SecFromTime t <= 59.
Proof. unfold SecFromTime. pose proof (Z.mod_pos_bound (t / 1000) 60). lia. Qed.

Lemma msFromTime_range t : 0 <= msFromTime t <= 999.
Proof. unfold msFromTime. pose proof (Z.mod_pos_bound t 1000). lia. Qed.

Lemma decimal_value_snoc s c :
  decimal_value (s ++ [c]) = 10 * decimal_value s + (Z.of_N c - 48).
Proof. unfold decimal_value. rewrite fold_left_app. reflexivity. Qed.

Lemma digit_value n : Z.of_N (digit n) - 48 = n mod 10.
Proof.
  unfold digit. pose proof (Z.mod_pos_bound n 10). rewrite Z2N.id; lia.
Qed.

Lemma digit_range n : (48 <= digit n <= 57)%N.
Proof.
  unfold digit. pose proof (Z.mod_pos_bound n 10). lia.
Qed.

Lemma length_pad k n : List.length (pad k n) = k.
Proof.
  revert n. induction k as [|k IH]; intro n; simpl; [reflexivity|].
  rewrite length_app, IH. simpl. lia.
Qed.

Lemma pad_digits k n c : In c (pad k n) -> (48 <= c <= 57)%N.
Proof.
  revert n. induction k as [|k IH]; intro n; simpl; [tauto|].
  rewrite in_app_iff. simpl. intros [H|[<-|[]]]; [eauto | apply digit_range].
Qed.

(** The digits printed denote the number, modulo the width. *)
Lemma decimal_value_pad k n : decimal_value (pad k n) = n mod 10 ^ Z.of_nat k.
Proof.
  revert n. induction k as [|k IH]; intro n.
  - simpl. now rewrite Z.mod_1_r.
  - cbn [pad]. rewrite decimal_value_snoc, IH, digit_value.
    rewrite Nat2Z.inj_succ, Z.pow_succ_r by lia.
    rewrite Z.rem_mul_r by lia. lia.
Qed.

(** With a four-digit year the string is the 24-character form
    YYYY-MM-DDTHH:mm:ss.sssZ. *)
Lemma toISOString_length t :
  0 <= YearFromTime t <= 9999 -> List.length (toISOString t) = 24%nat.
Proof.
  intros [H0 H1]. unfold toISOString, year_string.
  apply Z.leb_le in H0, H1. rewrite H0, H1. cbn [andb].
  repeat rewrite length_app. repeat rewrite length_pad. reflexivity.
Qed.

Example iso_epoch : toISOString 0 = lit "1970-01-01T00:00:00.000Z".
Proof. reflexivity. Qed.

Example iso_leap_day_2000 : toISOString 951782400000 = lit "2000-02-29T00:00:00.000Z".
Proof. reflexivity. Qed.

Example iso_2023 : toISOString 1700000000000 = lit "2023-11-14T22:13:20.000Z".
Proof. reflexivity. Qed.

Example iso_before_epoch : toISOString (-1) = lit "1969-12-31T23:59:59.999Z".
Proof. reflexivity. Qed.

Example iso_year_10000 : toISOString 253402300800000 = lit "+010000-01-01T00:00:00.000Z".
Proof. reflexivity. Qed.

Example iso_year_minus_1 : toISOString (-62198755200000) = lit "-000001-01-01T00:00:00.000Z".
Proof. reflexivity. Qed.

Example iso_year_0 : toISOString (-62167219200000) = lit "0000-01-01T00:00:00.000Z".
Proof. reflexivity. Qed.

Example iso_leap_day_2024 : toISOString 1709251199999 = lit "2024-02-29T23:59:59.999Z".
Proof. reflexivity. Qed.

Example iso_new_year_2025 : toISOString 1735689600000 = lit "2025-01-01T00:00:00.000Z".
Proof. reflexivity. Qed.

Example iso_new_year_eve_2026 : toISOString 1798761599000 = lit "2026-12-31T23:59:59.000Z".
Proof. reflexivity. Qed.

Example iso_march_2024 : toISOString 1709251200000 = lit "2024-03-01T00:00:00.000Z".
Proof. reflexivity. Qed.

Example iso_march_2100 : toISOString 4107542400000 = lit "2100-03-01T00:00:00.000Z".
Proof. reflexivity. Qed.

Example pad_2023 : decimal_value (pad 4 2023) = 2023.
Proof. reflexivity. Qed.

End DateFacts.

(** ** Shape of the timestamp *)

Section TimestampFacts.
Local Open Scope Z_scope.

Lemma isDigit_digit n : isDigit (digit n) = true.
Proof.
  unfold isDigit. pose proof (digit_range n) as [L U].
  apply andb_true_iff. split; apply N.leb_le; assumption.
Qed.

Lemma twoDigits_pad n : 0 <= n <= 99 -> twoDigits (digit (n / 10)) (digit n) = n.
Proof.
  intro R. unfold twoDigits.
  change [digit (n / 10); digit n] with (pad 2 n).
  rewrite decimal_value_pad. apply Z.mod_small. cbn. lia.
Qed.

(** A clock between the start of year 0 and the end of year 9999 reads a
    four-digit year. *)
Lemma YearFromTime_four_digits t :
  -62167219200000 <= t < 253402300800000 -> 0 <= YearFromTime t <= 9999.
Proof.
  intros [L U]. unfold YearFromTime.
  assert (D : -719528 <= Day t < 2932897).
  { unfold Day, msPerDay. Z.div_mod_to_equations. lia. }
  pose proof (year_of_day_bounds (Day t)) as [B1 B2].
  split.
  - destruct (Z_lt_le_dec (year_of_day (Day t)) 0) as [N|N]; [|exact N].
    pose proof (DayFromYear_le (year_of_day (Day t) + 1) 0 ltac:(lia)) as M.
    change (DayFromYear 0) with (-719528) in M. lia.
  - destruct (Z_lt_le_dec 9999 (year_of_day (Day t))) as [N|N]; [|exact N].
    pose proof (DayFromYear_le 10000 (year_of_day (Day t)) ltac:(lia)) as M.
    change (DayFromYear 10000) with 2932897 in M. lia.
Qed.

Lemma toISOString_isoTimestamp t :
  0 <= YearFromTime t <= 9999 -> isoTimestamp (toISOString t) = true.
Proof.
  intros [Y0 Y1]. unfold toISOString, year_string.
  apply Z.leb_le in Y0, Y1. rewrite Y0, Y1. cbn [andb].
  change (lit "-") with [45%N]. change (lit "T") with [84%N].
  change (lit ":") with [58%N]. change (lit ".") with [46%N].
  change (lit "Z") with [90%N].
  cbn [pad app isoTimestamp forallb].
  rewrite !isDigit_digit. cbn [andb N.eqb Pos.eqb].
  pose proof (MonthFromTime_range t). pose proof (DateFromTime_range t).
  pose proof (HourFromTime_range t). pose proof (MinFromTime_range t).
  pose proof (SecFromTime_range t).
  rewrite !twoDigits_pad by lia.
  repeat (apply andb_true_iff; split); apply Z.leb_le; lia.
Qed.

End TimestampFacts.

(** ** Reading a timestamp back *)

Section RoundTrip.
Local Open Scope Z_scope.

Lemma toISOString_split t :
  toISOString t = year_string (YearFromTime t) ++ isoTail t.
Proof. reflexivity. Qed.

Lemma decimal_value_pad_small k n :
  0 <= n < 10 ^ Z.of_nat k -> decimal_value (pad k n) = n.
Proof. intro R. rewrite decimal_value_pad. apply Z.mod_small, R. Qed.

Lemma digit_not_sign n : ((digit n =? 43) || (digit n =? 45))%N = false.
Proof.
  pose proof (digit_range n) as [L U].
  apply orb_false_iff. split; apply N.eqb_neq; lia.
Qed.

(** The time of day and the day number make up the time value. *)
Lemma MakeDate_of_time t :
  MakeDate (Day t)
    (MakeTime (HourFromTime t) (MinFromTime t) (SecFromTime t) (msFromTime t))
  = t.
Proof.
  unfold MakeDate, MakeTime, Day, msPerDay, HourFromTime, MinFromTime,
    SecFromTime, msFromTime.
  Z.div_mod_to_equations. lia.
Qed.

(** Year, month and date make up the day number. *)
Lemma MakeDay_of_time t :
  MakeDay (YearFromTime t) (MonthFromTime t) (DateFromTime t) = Day t.
Proof.
  unfold MakeDay, DateFromTime, MonthFromTime.
  fold (InLeapYear t).
  assert (E : DayFromYear (YearFromTime t) = Day t - DayWithinYear t)
    by (unfold DayWithinYear; lia).
  rewrite E. generalize (DayWithinYear t) (InLeapYear t). intros d l.
  cbv zeta.
  repeat match goal with
         | |- context [?a <? ?b] =>
             destruct (Z.ltb_spec a b); [cbv iota beta delta [dayOffsetOfMonth]; lia|]
         end.
  cbv iota beta delta [dayOffsetOfMonth]. lia.
Qed.

Lemma isoTail_valid t : isoTimestamp (lit "0000" ++ isoTail t) = true.
Proof.
  unfold isoTail.
  change (lit "0000") with [48%N; 48%N; 48%N; 48%N].
  change (lit "-") with [45%N]. change (lit "T") with [84%N].
  change (lit ":") with [58%N]. change (lit ".") with [46%N].
  change (lit "Z") with [90%N].
  cbn [pad app isoTimestamp forallb].
  rewrite !isDigit_digit.
  change (isDigit 48%N) with true. cbn [andb N.eqb Pos.eqb].
  pose proof (MonthFromTime_range t). pose proof (DateFromTime_range t).
  pose proof (HourFromTime_range t). pose proof (MinFromTime_range t).
  pose proof (SecFromTime_range t).
  rewrite !twoDigits_pad by lia.
  repeat (apply andb_true_iff; split); apply Z.leb_le; lia.
Qed.

Lemma parseAfterYear_isoTail y t :
  parseAfterYear y (isoTail t)
  = Some (MakeDate (MakeDay y (MonthFromTime t) (DateFromTime t))
            (MakeTime (HourFromTime t) (MinFromTime t) (SecFromTime t)
                      (msFromTime t))).
Proof.
  pose proof (isoTail_valid t) as V. revert V. unfold isoTail.
  change (lit "-") with [45%N]. change (lit "T") with [84%N].
  change (lit ":") with [58%N]. change (lit ".") with [46%N].
  change (lit "Z") with [90%N].
  cbn [pad app parseAfterYear]. intros ->.
  pose proof (MonthFromTime_range t). pose proof (DateFromTime_range t).
  pose proof (HourFromTime_range t). pose proof (MinFromTime_range t).
  pose proof (SecFromTime_range t). pose proof (msFromTime_range t).
  rewrite !twoDigits_pad by lia.
  change [digit (msFromTime t / 10 / 10); digit (msFromTime t / 10);
          digit (msFromTime t)] with (pad 3 (msFromTime t)).
  rewrite decimal_value_pad_small by (cbn; lia).
  replace (MonthFromTime t + 1 - 1) with (MonthFromTime t) by lia.
  reflexivity.
Qed.

Lemma YearFromTime_between t a b :
  DayFromYear a <= Day t -> Day t < DayFromYear b -> a <= YearFromTime t < b.
Proof.
  intros L U. unfold YearFromTime.
  pose proof (year_of_day_bounds (Day t)) as [B1 B2].
  split.
  - destruct (Z_lt_le_dec (year_of_day (Day t)) a) as [N|N]; [|exact N].
    pose proof (DayFromYear_le (year_of_day (Day t) + 1) a ltac:(lia)). lia.
  - destruct (Z_lt_le_dec (year_of_day (Day t)) b) as [N|N]; [exact N|].
    pose proof (DayFromYear_le b (year_of_day (Day t)) N). lia.
Qed.

(** The years of the time values a [Date] can hold have six digits. *)
Lemma YearFromTime_six_digits t :
  -8640000000000000 <= t <= 8640000000000000 ->
  -999999 <= YearFromTime t <= 999999.
Proof.
  intros [L U].
  assert (D : -100000000 <= Day t <= 100000000).
  { unfold Day, msPerDay. Z.div_mod_to_equations. lia. }
  assert (A : DayFromYear (-999999) <= -100000000) by (vm_compute; discriminate).
  assert (B : 100000000 < DayFromYear 1000000) by reflexivity.
  pose proof (YearFromTime_between t (-999999) 1000000 ltac:(lia) ltac:(lia)).
  lia.
Qed.

Lemma parse_year_string y rest :
  -999999 <= y <= 999999 ->
  parseISOString (year_string y ++ rest) = parseAfterYear y rest.
Proof.
  intro R. unfold year_string.
  destruct (Z.leb_spec 0 y) as [P|N]; cbn [andb].
  - destruct (Z.leb_spec y 9999) as [S|B].
    + (* four digits *)
      cbn [pad app]. unfold parseISOString.
      rewrite digit_not_sign. cbn [forallb]. rewrite !isDigit_digit.
      cbn [andb].
      change [digit (y / 10 / 10 / 10); digit (y / 10 / 10); digit (y / 10);
              digit y] with (pad 4 y).
      rewrite decimal_value_pad_small by (cbn; lia). reflexivity.
    + (* plus and six digits *)
      destruct (Z.ltb_spec y 0) as [C|_]; [lia|].
      change (lit "+") with [43%N]. cbn [pad app]. unfold parseISOString.
      change ((43 =? 43) || (43 =? 45))%N with true. cbv iota.
      cbn [forallb]. rewrite !isDigit_digit.
      change (43 =? 45)%N with false. cbn [andb negb].
      change [digit (Z.abs y / 10 / 10 / 10 / 10 / 10);
              digit (Z.abs y / 10 / 10 / 10 / 10);
              digit (Z.abs y / 10 / 10 / 10); digit (Z.abs y / 10 / 10);
              digit (Z.abs y / 10); digit (Z.abs y)] with (pad 6 (Z.abs y)).
      rewrite decimal_value_pad_small by (cbn; lia).
      rewrite Z.abs_eq by lia. reflexivity.
  - (* minus and six digits *)
    destruct (Z.ltb_spec y 0) as [_|C]; [|lia].
    change (lit "-") with [45%N]. cbn [pad app]. unfold parseISOString.
    change ((45 =? 43) || (45 =? 45))%N with true. cbv iota.
    cbn [forallb]. rewrite !isDigit_digit.
    change (45 =? 45)%N with true.
    change [digit (Z.abs y / 10 / 10 / 10 / 10 / 10);
            digit (Z.abs y / 10 / 10 / 10 / 10);
            digit (Z.abs y / 10 / 10 / 10); digit (Z.abs y / 10 / 10);
            digit (Z.abs y / 10); digit (Z.abs y)] with (pad 6 (Z.abs y)).
    rewrite decimal_value_pad_small by (cbn; lia).
    destruct (Z.eqb_spec (Z.abs y) 0) as [Z0|_]; [lia|]. cbn [andb negb].
    rewrite Z.abs_neq by lia. rewrite Z.opp_involutive. reflexivity.
Qed.

(** The timestamp printed for a time value any [Date] can hold reads
    back as that time value, to the millisecond. *)
Lemma toISOString_round_trip t :
  -8640000000000000 <= t <= 8640000000000000 ->
  parseISOString (toISOString t) = Some t.
Proof.
  intro R. rewrite toISOString_split.
  rewrite parse_year_string by (apply YearFromTime_six_digits, R).
  rewrite parseAfterYear_isoTail, MakeDay_of_time, MakeDate_of_time.
  reflexivity.
Qed.

(** Two different instants never print the same timestamp. *)
Lemma toISOString_injective t u :
  -8640000000000000 <= t <= 8640000000000000 ->
  -8640000000000000 <= u <= 8640000000000000 ->
  toISOString t = toISOString u -> t = u.
Proof.
  intros Rt Ru E. apply toISOString_round_trip in Rt, Ru.
  rewrite E in Rt. congruence.
Qed.

End RoundTrip.

(** ** What one invocation does *)

(** Unfolds a handler run down to the services' answers. *)
Ltac run_handler :=
  cbv beta iota zeta delta
    [invoke after handleSubmit handleAiPolish bind ret try_catch_finally
     update setName setEmail setMessage setIsPolishing setIsSubmitting
     setStatus preventDefault import_meta_env new_Date_toISOString await
     response_text_call response_text form outbound defaultPrevented
     name email message isPolishing isSubmitting status
     storeAnswer emailAnswer polishAnswer storeWrite emailSend polishCall
     submittedDoc submittedParams submitting polishing withStatus
     errorStatus successStatus passesValidation passesPolishGuards].

(** *** From any world

    The handler reads [props], the values of the render it closes over,
    and writes to the form as it is now, which may have moved on since
    that render. *)

Lemma handleSubmit_rejects_at props env w :
  passesValidation props = false ->
  handleSubmit props env w =
  (Normal tt,
   mkWorld (withStatus (form w) (errorStatus (lit "Please fill in all fields.")))
           (outbound w) true).
Proof.
  destruct props as [n e m p s t], w as [f o d]. run_handler. intro H.
  destruct (truthy (trim n)), (truthy (trim e)), (truthy (trim m));
    try discriminate H; reflexivity.
Qed.

Lemma handleSubmit_runs_at props env w :
  passesValidation props = true ->
  handleSubmit props env w =
  (Normal tt,
   let cur := form w in
   let failed err :=
     mkForm (name cur) (email cur) (message cur) (isPolishing cur) false
       (errorStatus (or_else (err_message err) (lit "Failed to send message.")))
   in
   match storeAnswer env props with
   | Throw err =>
       mkWorld (failed err)
               (outbound w ++ [(storeWrite env props, submitting cur)]) true
   | Normal _ =>
       match emailAnswer env props with
       | Throw err =>
           mkWorld (failed err)
                   ((outbound w ++ [(storeWrite env props, submitting cur)])
                    ++ [(emailSend env props, submitting cur)]) true
       | Normal _ =>
           mkWorld (mkForm [] [] [] (isPolishing cur) false
                           (successStatus (lit "Message sent successfully!")))
                   ((outbound w ++ [(storeWrite env props, submitting cur)])
                    ++ [(emailSend env props, submitting cur)]) true
       end
   end).
Proof.
  destruct props as [n e m p s t], w as [f o d]. run_handler. intro H.
  destruct (truthy (trim n)), (truthy (trim e)), (truthy (trim m));
    try discriminate H. cbn [negb orb].
  destruct (addDoc env _ _) as [[]|err]; [|reflexivity].
  destruct (emailjs_send env _ _ _ _) as [[]|err]; reflexivity.
Qed.

Lemma handleAiPolish_blank_at props env w :
  truthy (trim (message props)) = false ->
  handleAiPolish props env w = (Normal tt, w).
Proof.
  destruct props as [n e m p s t]. run_handler. intro H. rewrite H. reflexivity.
Qed.

Lemma handleAiPolish_no_key_at props env w :
  truthy (trim (message props)) = true ->
  truthy_opt (VITE_GOOGLE_GENERATIVE_AI_API_KEY env) = false ->
  handleAiPolish props env w =
  (Normal tt,
   mkWorld (withStatus (form w) (errorStatus (lit "AI API key not configured.")))
           (outbound w) (defaultPrevented w)).
Proof.
  destruct props as [n e m p s t], w as [f o d]. run_handler.
  intros H K. rewrite H. cbn [negb]. run_handler.
  rewrite K. reflexivity.
Qed.

Lemma handleAiPolish_runs_at props env w :
  passesPolishGuards env props = true ->
  handleAiPolish props env w =
  (Normal tt,
   let cur := form w in
   let failed err :=
     mkForm (name cur) (email cur) (message cur) false (isSubmitting cur)
       (errorStatus (or_else (err_message err) (lit "AI polish failed.")))
   in
   mkWorld
     match polishAnswer env props with
     | Throw err => failed err
     | Normal result =>
         match response_text result with
         | Throw err => failed err
         | Normal polishedText =>
             if truthy polishedText then
               mkForm (name cur) (email cur) (trim polishedText) false
                      (isSubmitting cur) (successStatus (lit "Message polished!"))
             else
               mkForm (name cur) (email cur) (message cur) false
                      (isSubmitting cur) None
         end
     end
     (outbound w ++ [(polishCall env props, polishing cur)])
     (defaultPrevented w)).
Proof.
  destruct props as [n e m p s t], w as [f o d]. run_handler. intro H.
  apply andb_prop in H. destruct H as [H K]. rewrite H. cbn [negb].
  run_handler. rewrite K. cbn [negb]. run_handler.
  destruct (generateContent env _ _ _) as [[[txt|err']]|err]; try reflexivity.
  destruct (truthy txt); reflexivity.
Qed.

(** *** From the render the handler closes over *)

Lemma handleSubmit_rejects env st :
  passesValidation st = false ->
  invoke handleSubmit env st =
  (Normal tt,
   mkWorld (withStatus st (errorStatus (lit "Please fill in all fields.")))
           [] true).
Proof.
  intro H. unfold invoke. rewrite (handleSubmit_rejects_at st env _ H).
  reflexivity.
Qed.

Lemma handleSubmit_runs env st :
  passesValidation st = true ->
  invoke handleSubmit env st =
  (Normal tt,
   match storeAnswer env st with
   | Throw err =>
       mkWorld (mkForm (name st) (email st) (message st) (isPolishing st) false
                 (errorStatus
                    (or_else (err_message err) (lit "Failed to send message."))))
               [(storeWrite env st, submitting st)] true
   | Normal _ =>
       match emailAnswer env st with
       | Throw err =>
           mkWorld (mkForm (name st) (email st) (message st) (isPolishing st) false
                 (errorStatus
                    (or_else (err_message err) (lit "Failed to send message."))))
                   [(storeWrite env st, submitting st);
                    (emailSend env st, submitting st)] true
       | Normal _ =>
           mkWorld (mkForm [] [] [] (isPolishing st) false
                           (successStatus (lit "Message sent successfully!")))
                   [(storeWrite env st, submitting st);
                    (emailSend env st, submitting st)] true
       end
   end).
Proof.
  intro H. unfold invoke. rewrite (handleSubmit_runs_at st env _ H).
  cbn [form outbound app].
  destruct (storeAnswer env st); [destruct (emailAnswer env st)|]; reflexivity.
Qed.

Lemma handleAiPolish_blank env st :
  truthy (trim (message st)) = false ->
  invoke handleAiPolish env st = (Normal tt, mkWorld st [] false).
Proof. intro H. unfold invoke. apply handleAiPolish_blank_at, H. Qed.

Lemma handleAiPolish_no_key env st :
  truthy (trim (message st)) = true ->
  truthy_opt (VITE_GOOGLE_GENERATIVE_AI_API_KEY env) = false ->
  invoke handleAiPolish env st =
  (Normal tt,
   mkWorld (withStatus st (errorStatus (lit "AI API key not configured.")))
           [] false).
Proof.
  intros H K. unfold invoke. rewrite (handleAiPolish_no_key_at st env _ H K).
  reflexivity.
Qed.

Lemma handleAiPolish_runs env st :
  passesPolishGuards env st = true ->
  invoke handleAiPolish env st =
  (Normal tt,
   mkWorld
     match polishAnswer env st with
     | Throw err =>
         mkForm (name st) (email st) (message st) false (isSubmitting st)
                (errorStatus (or_else (err_message err) (lit "AI polish failed.")))
     | Normal result =>
         match response_text result with
         | Throw err =>
             mkForm (name st) (email st) (message st) false (isSubmitting st)
                    (errorStatus (or_else (err_message err) (lit "AI polish failed.")))
         | Normal polishedText =>
             if truthy polishedText then
               mkForm (name st) (email st) (trim polishedText) false
                      (isSubmitting st) (successStatus (lit "Message polished!"))
             else
               mkForm (name st) (email st) (message st) false (isSubmitting st)
                      None
         end
     end
     [(polishCall env st, polishing st)] false).
Proof.
  intro H. unfold invoke. rewrite (handleAiPolish_runs_at st env _ H).
  reflexivity.
Qed.

(** The guards, in the words of the specification. *)
Lemma passesValidation_false (st : FormState) :
  passesValidation st = false <->
  trim (name st) = [] \/ trim (email st) = [] \/ trim (message st) = [].
Proof.
  unfold passesValidation. rewrite <- !truthy_nil.
  destruct (truthy (trim (name st))), (truthy (trim (email st))),
    (truthy (trim (message st))); simpl; intuition congruence.
Qed.

Lemma passesValidation_true (st : FormState) :
  passesValidation st = true <->
  trim (name st) <> [] /\ trim (email st) <> [] /\ trim (message st) <> [].
Proof.
  unfold passesValidation. rewrite <- !truthy_cons.
  destruct (truthy (trim (name st))), (truthy (trim (email st))),
    (truthy (trim (message st))); simpl; intuition congruence.
Qed.

Lemma passesPolishGuards_true (env : Env) (st : FormState) :
  passesPolishGuards env st = true <->
  blank (message st) = false
  /\ truthy_opt (VITE_GOOGLE_GENERATIVE_AI_API_KEY env) = true.
Proof.
  unfold passesPolishGuards. rewrite truthy_trim, andb_true_iff, negb_true_iff.
  tauto.
Qed.

(** ** Submit action *)

(** C1 (amended).  When the name, the email or the message is empty after
    trimming, the Submit Action returns having set the status to the error
    whose text is "Please fill in all fields." (with the final full stop),
    having made no outbound call at all (so no store write and no email
    send), and with name, email and message as they were. *)
Theorem C1_submit_blank_field_rejected (env : Env) (st : FormState) :
  trim (name st) = [] \/ trim (email st) = [] \/ trim (message st) = [] ->
  fst (invoke handleSubmit env st) = Normal tt
  /\ status (form (after handleSubmit env st))
     = Some (mkStatus error (lit "Please fill in all fields."))
  /\ calls (after handleSubmit env st) = []
  /\ name (form (after handleSubmit env st)) = name st
  /\ email (form (after handleSubmit env st)) = email st
  /\ message (form (after handleSubmit env st)) = message st.
Proof.
  intro H. apply passesValidation_false in H.
  unfold after. rewrite (handleSubmit_rejects env st H).
  repeat split.
Qed.

Lemma C1_submit_blank_field_rejected_witness :
  (trim (name blankState) = [] \/ trim (email blankState) = []
   \/ trim (message blankState) = [])
  /\ status (form (after handleSubmit envAllOk blankState))
     = Some (mkStatus error (lit "Please fill in all fields."))
  /\ calls (after handleSubmit envAllOk blankState) = [].
Proof.
  assert (H : trim (name blankState) = [] \/ trim (email blankState) = []
              \/ trim (message blankState) = []) by (left; reflexivity).
  split; [exact H|].
  destruct (C1_submit_blank_field_rejected envAllOk blankState H)
    as (_ & S & C & _).
  split; [exact S | exact C].
Defined.

(** C1 as stated fails: on the empty form the status text is not
    "Please fill in all fields" (the text the code sets ends with a full
    stop). *)
Lemma C1_counterexample_status_text :
  trim (name initialState) = []
  /\ status (form (after handleSubmit envAllOk initialState))
     <> Some (mkStatus error (lit "Please fill in all fields")).
Proof. split; [reflexivity | vm_compute; discriminate]. Qed.

(** C2.  When name, email and message are all non-empty after trimming and
    both services accept, the Submit Action makes exactly two outbound
    calls, in this order: one insert into the "messages" collection of the
    document holding the trimmed name, email and message and, as createdAt,
    the clock's time in ISO-8601 format; then one email send with the
    trimmed values as from_name, from_email and message.  It ends with
    name, email and message empty, a success status, and isSubmitting
    false.  The createdAt text is the current time: for every time value
    a Date can hold it reads back as exactly the clock's time, and for a
    year from 0 to 9999 it has the form YYYY-MM-DDTHH:mm:ss.sssZ. *)
Theorem C2_submit_success (env : Env) (st : FormState) :
  trim (name st) <> [] -> trim (email st) <> [] -> trim (message st) <> [] ->
  storeAnswer env st = Normal tt ->
  emailAnswer env st = Normal tt ->
  fst (invoke handleSubmit env st) = Normal tt
  /\ calls (after handleSubmit env st)
     = [ AddDoc (lit "messages")
           (mkDoc (trim (name st)) (trim (email st)) (trim (message st))
                  (toISOString (clock env)));
         EmailSend (VITE_EMAILJS_SERVICE_ID env) (VITE_EMAILJS_TEMPLATE_ID env)
           (mkParams (trim (name st)) (trim (email st)) (trim (message st)))
           (VITE_EMAILJS_PUBLIC_KEY env) ]
  /\ form (after handleSubmit env st)
     = mkForm [] [] [] (isPolishing st) false
         (Some (mkStatus success (lit "Message sent successfully!")))
  /\ ((-8640000000000000 <= clock env <= 8640000000000000)%Z ->
      forall path doc,
        In (AddDoc path doc) (calls (after handleSubmit env st)) ->
        parseISOString (createdAt doc) = Some (clock env))
  /\ ((-62167219200000 <= clock env < 253402300800000)%Z ->
      forall path doc,
        In (AddDoc path doc) (calls (after handleSubmit env st)) ->
        isoTimestamp (createdAt doc) = true).
Proof.
  intros Hn He Hm Hs Hm'.
  assert (V : passesValidation st = true) by (apply passesValidation_true; auto).
  assert (C : calls (after handleSubmit env st)
              = [ AddDoc (lit "messages")
                    (mkDoc (trim (name st)) (trim (email st))
                           (trim (message st)) (toISOString (clock env)));
                  EmailSend (VITE_EMAILJS_SERVICE_ID env)
                    (VITE_EMAILJS_TEMPLATE_ID env)
                    (mkParams (trim (name st)) (trim (email st))
                              (trim (message st)))
                    (VITE_EMAILJS_PUBLIC_KEY env) ]).
  { unfold after. rewrite (handleSubmit_runs env st V), Hs, Hm'. reflexivity. }
  assert (D : forall path doc,
             In (AddDoc path doc) (calls (after handleSubmit env st)) ->
             createdAt doc = toISOString (clock env)).
  { intros path doc H. rewrite C in H.
    destruct H as [H | [H | []]]; [|discriminate H].
    inversion H. reflexivity. }
  split; [|split; [exact C|split; [|split]]].
  - unfold after. rewrite (handleSubmit_runs env st V). reflexivity.
  - unfold after. rewrite (handleSubmit_runs env st V), Hs, Hm'. reflexivity.
  - intros R path doc H. rewrite (D path doc H).
    apply toISOString_round_trip, R.
  - intros R path doc H. rewrite (D path doc H).
    apply toISOString_isoTimestamp, YearFromTime_four_digits, R.
Qed.

Lemma C2_submit_success_witness :
  trim (name filledState) <> []
  /\ storeAnswer envAllOk filledState = Normal tt
  /\ calls (after handleSubmit envAllOk filledState)
     = [ AddDoc (lit "messages")
           (mkDoc (lit "Ada") (lit "ada@example.org") (lit "hello there")
                  (lit "2023-11-14T22:13:20.000Z"));
         EmailSend (Some (lit "service_1")) (Some (lit "template_1"))
           (mkParams (lit "Ada") (lit "ada@example.org") (lit "hello there"))
           (Some (lit "public_1")) ]
  /\ form (after handleSubmit envAllOk filledState)
     = mkForm [] [] [] false false
         (Some (mkStatus success (lit "Message sent successfully!")))
  /\ parseISOString (lit "2023-11-14T22:13:20.000Z") = Some 1700000000000%Z
  /\ isoTimestamp (lit "2023-11-14T22:13:20.000Z") = true
  /\ calls (after handleSubmit envLater filledState)
     = [ AddDoc (lit "messages")
           (mkDoc (lit "Ada") (lit "ada@example.org") (lit "hello there")
                  (lit "2024-02-29T23:59:59.999Z"));
         EmailSend (Some (lit "service_1")) (Some (lit "template_1"))
           (mkParams (lit "Ada") (lit "ada@example.org") (lit "hello there"))
           (Some (lit "public_1")) ]
  /\ parseISOString (lit "2024-02-29T23:59:59.999Z") = Some 1709251199999%Z.
Proof.
  assert (Hn : trim (name filledState) <> []) by (vm_compute; discriminate).
  assert (He : trim (email filledState) <> []) by (vm_compute; discriminate).
  assert (Hm : trim (message filledState) <> []) by (vm_compute; discriminate).
  destruct (C2_submit_success envAllOk filledState Hn He Hm eq_refl eq_refl)
    as (_ & C & F & P & I).
  destruct (C2_submit_success envLater filledState Hn He Hm eq_refl eq_refl)
    as (_ & C' & _ & P' & _).
  assert (R : (-8640000000000000 <= clock envAllOk <= 8640000000000000)%Z)
    by (cbn; lia).
  assert (R4 : (-62167219200000 <= clock envAllOk < 253402300800000)%Z)
    by (cbn; lia).
  assert (R' : (-8640000000000000 <= clock envLater <= 8640000000000000)%Z)
    by (cbn; lia).
  assert (H : In (AddDoc (lit "messages") (submittedDoc envAllOk filledState))
                 (calls (after handleSubmit envAllOk filledState)))
    by (rewrite C; left; reflexivity).
  assert (H' : In (AddDoc (lit "messages") (submittedDoc envLater filledState))
                  (calls (after handleSubmit envLater filledState)))
    by (rewrite C'; left; reflexivity).
  split; [exact Hn|]. split; [reflexivity|]. split; [exact C|].
  split; [exact F|].
  split; [exact (P R _ _ H)|]. split; [exact (I R4 _ _ H)|].
  split; [exact C' | exact (P' R' _ _ H')].
Defined.

(** C3.  In an invocation of the Submit Action that passes validation the
    first outbound call is the store write, every email send in the record
    of calls comes after a store write, and when the store write throws
    the record holds no email send. *)
Theorem C3_store_write_before_email_send (env : Env) (st : FormState) :
  passesValidation st = true ->
  hd_error (calls (after handleSubmit env st)) = Some (storeWrite env st)
  /\ (forall pre c post,
        calls (after handleSubmit env st) = pre ++ c :: post ->
        is_email_send c = true ->
        exists w, In w pre /\ is_store_write w = true)
  /\ (forall e, storeAnswer env st = Throw e ->
        forall c, In c (calls (after handleSubmit env st)) ->
                  is_email_send c = false).
Proof.
  intro V. unfold after. rewrite (handleSubmit_runs env st V).
  assert (Shape :
    forall cs : list Call,
      cs = [storeWrite env st] \/ cs = [storeWrite env st; emailSend env st] ->
      hd_error cs = Some (storeWrite env st)
      /\ (forall pre c post, cs = pre ++ c :: post -> is_email_send c = true ->
            exists w, In w pre /\ is_store_write w = true)).
  { intros cs [-> | ->]; (split; [reflexivity|]); intros pre c post E Hc.
    - destruct pre as [|a pre]; simpl in E; inversion E; subst.
      + discriminate Hc.
      + destruct pre; discriminate.
    - destruct pre as [|a [|b pre]]; simpl in E; inversion E; subst.
      + discriminate Hc.
      + exists (storeWrite env st). split; [left|]; reflexivity.
      + destruct pre; discriminate. }
  destruct (storeAnswer env st) as [[]|e0].
  - destruct (emailAnswer env st) as [[]|e1]; cbn [snd calls outbound map fst];
      (destruct (Shape [storeWrite env st; emailSend env st]) as [A B];
       [right; reflexivity|]); (split; [exact A|split; [exact B|]]);
      intros; discriminate.
  - cbn [snd calls outbound map fst].
    destruct (Shape [storeWrite env st]) as [A B]; [left; reflexivity|].
    split; [exact A|split; [exact B|]].
    intros _ _ c [<-|[]]. reflexivity.
Qed.

Lemma C3_store_write_before_email_send_witness :
  passesValidation filledState = true
  /\ hd_error (calls (after handleSubmit envStoreDown filledState))
     = Some (storeWrite envStoreDown filledState)
  /\ (forall c, In c (calls (after handleSubmit envStoreDown filledState)) ->
                is_email_send c = false).
Proof.
  assert (V : passesValidation filledState = true) by reflexivity.
  destruct (C3_store_write_before_email_send envStoreDown filledState V) as (A & _ & C).
  split; [exact V|]. split; [exact A|]. exact (C bareError eq_refl).
Defined.

(** C4 (amended).  When the submission passes validation and the store
    write throws, or the store write succeeds and the email send throws,
    the Submit Action returns having set an error status whose text is the
    thrown error's message, or "Failed to send message." (with the final
    full stop) when the error carries no message or an empty one; name,
    email and message are as they were.  When it was the email send that
    threw, the record of calls is the store write followed by the email
    send and nothing else: nothing undoes the write. *)
Theorem C4_submit_failure (env : Env) (st : FormState) (e : Thrown) :
  passesValidation st = true ->
  storeAnswer env st = Throw e
  \/ (storeAnswer env st = Normal tt /\ emailAnswer env st = Throw e) ->
  fst (invoke handleSubmit env st) = Normal tt
  /\ status (form (after handleSubmit env st))
     = Some (mkStatus error
               (or_else (err_message e) (lit "Failed to send message.")))
  /\ name (form (after handleSubmit env st)) = name st
  /\ email (form (after handleSubmit env st)) = email st
  /\ message (form (after handleSubmit env st)) = message st
  /\ (storeAnswer env st = Normal tt ->
      calls (after handleSubmit env st)
      = [storeWrite env st; emailSend env st]).
Proof.
  intros V H. unfold after. rewrite (handleSubmit_runs env st V).
  destruct H as [Hs | [Hs Hm]].
  - rewrite Hs. repeat split. discriminate.
  - rewrite Hs, Hm. repeat split.
Qed.

Lemma C4_submit_failure_witness :
  passesValidation filledState = true
  /\ storeAnswer envMailDown filledState = Normal tt
  /\ emailAnswer envMailDown filledState = Throw quotaError
  /\ status (form (after handleSubmit envMailDown filledState))
     = Some (mkStatus error (lit "Quota exceeded"))
  /\ name (form (after handleSubmit envMailDown filledState)) = lit " Ada "
  /\ calls (after handleSubmit envMailDown filledState)
     = [storeWrite envMailDown filledState; emailSend envMailDown filledState].
Proof.
  assert (V : passesValidation filledState = true) by reflexivity.
  destruct (C4_submit_failure envMailDown filledState quotaError V
              (or_intror (conj eq_refl eq_refl)))
    as (_ & S & N & _ & _ & C).
  split; [exact V|]. split; [reflexivity|]. split; [reflexivity|].
  split; [exact S|]. split; [exact N | exact (C eq_refl)].
Defined.

(** C4 as stated fails: when the store write throws an error without a
    message, the status text is not "Failed to send message" (the
    fallback the code uses ends with a full stop). *)
Lemma C4_counterexample_fallback_text :
  passesValidation filledState = true
  /\ storeAnswer envStoreDown filledState = Throw bareError
  /\ err_message bareError = None
  /\ status (form (after handleSubmit envStoreDown filledState))
     <> Some (mkStatus error (lit "Failed to send message")).
Proof. repeat split. vm_compute. discriminate. Qed.

(** ** In-flight flags *)

(** What an invocation does to the action's own flag: past the guards it
    ends lowered; on an early return it is not touched. *)
Lemma flags_after_invocation (env : Env) (st : FormState) :
  isPolishing (form (after handleAiPolish env st))
  = (if passesPolishGuards env st then false else isPolishing st)
  /\ isSubmitting (form (after handleSubmit env st))
     = (if passesValidation st then false else isSubmitting st).
Proof.
  split.
  - destruct (passesPolishGuards env st) eqn:G.
    + unfold after. rewrite (handleAiPolish_runs env st G). cbn [snd form].
      destruct (polishAnswer env st) as [r|e]; [|reflexivity].
      destruct (response_text r) as [txt|e]; [|reflexivity].
      destruct (truthy txt); reflexivity.
    + unfold passesPolishGuards in G. apply andb_false_iff in G.
      destruct (truthy (trim (message st))) eqn:T.
      * destruct G as [G|G]; [discriminate|].
        unfold after. rewrite (handleAiPolish_no_key env st T G). reflexivity.
      * unfold after. rewrite (handleAiPolish_blank env st T). reflexivity.
  - destruct (passesValidation st) eqn:V.
    + unfold after. rewrite (handleSubmit_runs env st V).
      destruct (storeAnswer env st) as [[]|e]; [|reflexivity].
      destruct (emailAnswer env st) as [[]|e]; reflexivity.
    + unfold after. rewrite (handleSubmit_rejects env st V). reflexivity.
Qed.

(** C5.  The form delivers an invocation through a button that is
    enabled, hence from a render in which the action's own flag is down.
    After every such invocation of the AI Polish Action isPolishing is
    false, and after every such invocation of the Submit Action
    isSubmitting is false, on every exit path: success, caught remote
    error, or early return.  The same holds from any state in which the
    flag is down, whatever the button shows. *)
Theorem C5_flags_down_after_invocation (env : Env) (st : FormState) :
  (polishButton_disabled (render st) = false ->
   isPolishing (form (after handleAiPolish env st)) = false)
  /\ (submitButton_disabled (render st) = false ->
      isSubmitting (form (after handleSubmit env st)) = false)
  /\ (isPolishing st = false ->
      isPolishing (form (after handleAiPolish env st)) = false)
  /\ (isSubmitting st = false ->
      isSubmitting (form (after handleSubmit env st)) = false).
Proof.
  destruct (flags_after_invocation env st) as [P S].
  assert (P' : isPolishing st = false ->
               isPolishing (form (after handleAiPolish env st)) = false).
  { intro H. rewrite P, H. destruct (passesPolishGuards env st); reflexivity. }
  assert (S' : isSubmitting st = false ->
               isSubmitting (form (after handleSubmit env st)) = false).
  { intro H. rewrite S, H. destruct (passesValidation st); reflexivity. }
  split; [|split; [|split; [exact P' | exact S']]].
  - cbn [render polishButton_disabled]. intro D.
    apply orb_false_iff in D. apply P', D.
  - cbn [render submitButton_disabled]. exact S'.
Qed.

Lemma C5_flags_down_after_invocation_witness :
  (* early return of the polish action: no API key *)
  (polishButton_disabled (render filledState) = false
   /\ passesPolishGuards envNoKey filledState = false
   /\ isPolishing (form (after handleAiPolish envNoKey filledState)) = false)
  (* caught error of the polish action *)
  /\ (polishAnswer envModelDown filledState = Throw bareError
      /\ isPolishing (form (after handleAiPolish envModelDown filledState))
         = false)
  (* early return of the submit action: blank fields *)
  /\ (submitButton_disabled (render blankState) = false
      /\ passesValidation blankState = false
      /\ isSubmitting (form (after handleSubmit envAllOk blankState)) = false)
  (* caught error of the submit action *)
  /\ (storeAnswer envStoreDown filledState = Throw bareError
      /\ isSubmitting (form (after handleSubmit envStoreDown filledState))
         = false)
  (* early return of the polish action: blank message, flag down *)
  /\ (blank (message blankState) = true
      /\ isPolishing (form (after handleAiPolish envAllOk blankState)) = false).
Proof.
  destruct (C5_flags_down_after_invocation envNoKey filledState)
    as (A & _ & _ & _).
  destruct (C5_flags_down_after_invocation envModelDown filledState)
    as (B & _ & _ & _).
  destruct (C5_flags_down_after_invocation envAllOk blankState)
    as (_ & C & E & _).
  destruct (C5_flags_down_after_invocation envStoreDown filledState)
    as (_ & D & _ & _).
  split; [split; [reflexivity | split; [reflexivity | exact (A eq_refl)]]|].
  split; [split; [reflexivity | exact (B eq_refl)]|].
  split; [split; [reflexivity | split; [reflexivity | exact (C eq_refl)]]|].
  split; [split; [reflexivity | exact (D eq_refl)]|].
  split; [reflexivity | exact (E eq_refl)].
Defined.

(** ** AI polish action *)

(** C6.  When the message is empty or white space only, the AI Polish
    Action returns having made no outbound call and with the whole form
    state (name, email, message, both flags, status) as it was. *)
Theorem C6_polish_blank_message_noop (env : Env) (st : FormState) :
  blank (message st) = true ->
  fst (invoke handleAiPolish env st) = Normal tt
  /\ calls (after handleAiPolish env st) = []
  /\ form (after handleAiPolish env st) = st.
Proof.
  intro B.
  assert (T : truthy (trim (message st)) = false)
    by (rewrite truthy_trim, B; reflexivity).
  unfold after. rewrite (handleAiPolish_blank env st T). repeat split.
Qed.

Lemma C6_polish_blank_message_noop_witness :
  blank (message blankState) = true
  /\ calls (after handleAiPolish envAllOk blankState) = []
  /\ form (after handleAiPolish envAllOk blankState) = blankState.
Proof.
  split; [reflexivity|].
  destruct (C6_polish_blank_message_noop envAllOk blankState eq_refl)
    as (_ & C & F).
  split; [exact C | exact F].
Defined.

(** C7 (amended).  When the message is not blank and the environment has
    no API key, the AI Polish Action returns having made no outbound call
    and having set the status to the error whose text is
    "AI API key not configured." (with the final full stop); message,
    name, email and the two flags are as they were. *)
Theorem C7_polish_without_api_key (env : Env) (st : FormState) :
  blank (message st) = false ->
  VITE_GOOGLE_GENERATIVE_AI_API_KEY env = None ->
  fst (invoke handleAiPolish env st) = Normal tt
  /\ calls (after handleAiPolish env st) = []
  /\ form (after handleAiPolish env st)
     = mkForm (name st) (email st) (message st) (isPolishing st)
         (isSubmitting st)
         (Some (mkStatus error (lit "AI API key not configured."))).
Proof.
  intros B K.
  assert (T : truthy (trim (message st)) = true)
    by (rewrite truthy_trim, B; reflexivity).
  assert (K' : truthy_opt (VITE_GOOGLE_GENERATIVE_AI_API_KEY env) = false)
    by (rewrite K; reflexivity).
  unfold after. rewrite (handleAiPolish_no_key env st T K'). repeat split.
Qed.

Lemma C7_polish_without_api_key_witness :
  blank (message filledState) = false
  /\ VITE_GOOGLE_GENERATIVE_AI_API_KEY envNoKey = None
  /\ calls (after handleAiPolish envNoKey filledState) = []
  /\ status (form (after handleAiPolish envNoKey filledState))
     = Some (mkStatus error (lit "AI API key not configured.")).
Proof.
  split; [reflexivity|]. split; [reflexivity|].
  destruct (C7_polish_without_api_key envNoKey filledState eq_refl eq_refl)
    as (_ & C & F).
  split; [exact C|]. rewrite F. reflexivity.
Defined.

(** C7 as stated fails: without an API key the status text is not
    "AI API key not configured" (the text the code sets ends with a full
    stop). *)
Lemma C7_counterexample_status_text :
  blank (message filledState) = false
  /\ VITE_GOOGLE_GENERATIVE_AI_API_KEY envNoKey = None
  /\ status (form (after handleAiPolish envNoKey filledState))
     <> Some (mkStatus error (lit "AI API key not configured")).
Proof. repeat split. vm_compute. discriminate. Qed.

(** C8.  When the message is not blank and an API key is configured, the
    AI Polish Action makes exactly one outbound call: it sends to the
    model the prompt "Rewrite the following text to be professional,
    polite, and concise: " followed by the message as it stands, and while
    that call is outstanding isPolishing is true and the status is
    cleared.  When the model answers with a non-empty text, the message
    becomes that text trimmed and the status a success. *)
Theorem C8_polish_sends_prompt_and_applies_answer
    (env : Env) (st : FormState) :
  blank (message st) = false ->
  truthy_opt (VITE_GOOGLE_GENERATIVE_AI_API_KEY env) = true ->
  outbound (after handleAiPolish env st)
  = [ (GenerateContent (VITE_GOOGLE_GENERATIVE_AI_API_KEY env)
         (lit "gemini-pro")
         (lit "Rewrite the following text to be professional, polite, and concise: "
          ++ message st),
       mkForm (name st) (email st) (message st) true (isSubmitting st) None) ]
  /\ (forall result polishedText,
        polishAnswer env st = Normal result ->
        response_text result = Normal polishedText ->
        polishedText <> [] ->
        message (form (after handleAiPolish env st)) = trim polishedText
        /\ status (form (after handleAiPolish env st))
           = Some (mkStatus success (lit "Message polished!"))).
Proof.
  intros B K.
  assert (G : passesPolishGuards env st = true)
    by (apply passesPolishGuards_true; auto).
  unfold after. rewrite (handleAiPolish_runs env st G). split; [reflexivity|].
  intros result txt -> -> N. apply truthy_cons in N.
  cbn [snd form]. rewrite N. split; reflexivity.
Qed.

Lemma C8_polish_sends_prompt_and_applies_answer_witness :
  blank (message filledState) = false
  /\ truthy_opt (VITE_GOOGLE_GENERATIVE_AI_API_KEY envAllOk) = true
  /\ calls (after handleAiPolish envAllOk filledState)
     = [ GenerateContent (Some (lit "key-123")) (lit "gemini-pro")
           (lit "Rewrite the following text to be professional, polite, and concise: hello there ") ]
  /\ message (form (after handleAiPolish envAllOk filledState))
     = lit "Dear team, thank you."
  /\ status (form (after handleAiPolish envAllOk filledState))
     = Some (mkStatus success (lit "Message polished!")).
Proof.
  split; [reflexivity|]. split; [reflexivity|].
  destruct (C8_polish_sends_prompt_and_applies_answer envAllOk filledState
              eq_refl eq_refl) as [O A].
  split; [unfold calls; rewrite O; reflexivity|].
  assert (N : lit "  Dear team, thank you.  " <> []) by discriminate.
  destruct (A (okResult "  Dear team, thank you.  ")
              (lit "  Dear team, thank you.  ") eq_refl eq_refl N) as [M S].
  split; [rewrite M; reflexivity | exact S].
Defined.

(** C9 (amended).  When the AI Polish Action got past its guards and the
    model call throws, the action still returns normally, having set an
    error status whose text is the thrown error's message, or
    "AI polish failed." (with the final full stop) when the error carries
    no message or an empty one; the message field is as it was. *)
Theorem C9_polish_failure (env : Env) (st : FormState) (e : Thrown) :
  blank (message st) = false ->
  truthy_opt (VITE_GOOGLE_GENERATIVE_AI_API_KEY env) = true ->
  polishAnswer env st = Throw e ->
  fst (invoke handleAiPolish env st) = Normal tt
  /\ status (form (after handleAiPolish env st))
     = Some (mkStatus error (or_else (err_message e) (lit "AI polish failed.")))
  /\ message (form (after handleAiPolish env st)) = message st.
Proof.
  intros B K A.
  assert (G : passesPolishGuards env st = true)
    by (apply passesPolishGuards_true; auto).
  unfold after. rewrite (handleAiPolish_runs env st G), A. repeat split.
Qed.

Lemma C9_polish_failure_witness :
  blank (message filledState) = false
  /\ truthy_opt (VITE_GOOGLE_GENERATIVE_AI_API_KEY envModelDown) = true
  /\ polishAnswer envModelDown filledState = Throw bareError
  /\ status (form (after handleAiPolish envModelDown filledState))
     = Some (mkStatus error (lit "AI polish failed."))
  /\ message (form (after handleAiPolish envModelDown filledState))
     = lit "hello there "
  /\ polishAnswer envModelQuota filledState = Throw quotaError
  /\ status (form (after handleAiPolish envModelQuota filledState))
     = Some (mkStatus error (lit "Quota exceeded")).
Proof.
  split; [reflexivity|]. split; [reflexivity|]. split; [reflexivity|].
  destruct (C9_polish_failure envModelDown filledState bareError
              eq_refl eq_refl eq_refl) as (_ & S & M).
  destruct (C9_polish_failure envModelQuota filledState quotaError
              eq_refl eq_refl eq_refl) as (_ & S' & _).
  split; [exact S|]. split; [exact M|]. split; [reflexivity | exact S'].
Defined.

(** C9 as stated fails: when the model call throws an error without a
    message, the status text is not "AI polish failed" (the fallback the
    code uses ends with a full stop). *)
Lemma C9_counterexample_fallback_text :
  passesPolishGuards envModelDown filledState = true
  /\ polishAnswer envModelDown filledState = Throw bareError
  /\ err_message bareError = None
  /\ status (form (after handleAiPolish envModelDown filledState))
     <> Some (mkStatus error (lit "AI polish failed")).
Proof. repeat split. vm_compute. discriminate. Qed.

(** C10.  When the AI Polish Action got past its guards and the model
    call succeeds with the empty text, the message field is as it was, the
    status is the null it was cleared to when the action started (neither
    success nor error), and isPolishing is false. *)
Theorem C10_polish_empty_answer
    (env : Env) (st : FormState) (result : GenerateContentResult) :
  blank (message st) = false ->
  truthy_opt (VITE_GOOGLE_GENERATIVE_AI_API_KEY env) = true ->
  polishAnswer env st = Normal result ->
  response_text result = Normal [] ->
  fst (invoke handleAiPolish env st) = Normal tt
  /\ message (form (after handleAiPolish env st)) = message st
  /\ status (form (after handleAiPolish env st)) = None
  /\ isPolishing (form (after handleAiPolish env st)) = false.
Proof.
  intros B K A R.
  assert (G : passesPolishGuards env st = true)
    by (apply passesPolishGuards_true; auto).
  unfold after. rewrite (handleAiPolish_runs env st G), A, R. repeat split.
Qed.

Lemma C10_polish_empty_answer_witness :
  blank (message filledState) = false
  /\ polishAnswer envEmptyAnswer filledState = Normal (mkResult (Normal []))
  /\ message (form (after handleAiPolish envEmptyAnswer filledState))
     = lit "hello there "
  /\ status (form (after handleAiPolish envEmptyAnswer filledState)) = None
  /\ isPolishing (form (after handleAiPolish envEmptyAnswer filledState))
     = false.
Proof.
  split; [reflexivity|]. split; [reflexivity|].
  destruct (C10_polish_empty_answer envEmptyAnswer filledState (mkResult (Normal []))
              eq_refl eq_refl eq_refl eq_refl) as (_ & M & S & P).
  split; [exact M|]. split; [exact S | exact P].
Defined.

(** * Further properties of the handlers *)

(** Splits an invocation of the submit handler into its four outcomes. *)
Ltac submit_cases env st :=
  unfold after;
  let V := fresh "V" in
  let S := fresh "S" in
  let E := fresh "E" in
  destruct (passesValidation st) eqn:V;
  [ rewrite (handleSubmit_runs env st V);
    destruct (storeAnswer env st) as [[]|?] eqn:S;
    [ destruct (emailAnswer env st) as [[]|?] eqn:E | ]
  | rewrite (handleSubmit_rejects env st V) ].

(** Splits an invocation of the polish handler into its outcomes. *)
Ltac polish_cases env st :=
  unfold after;
  let G := fresh "G" in
  let T := fresh "T" in
  let K := fresh "K" in
  destruct (passesPolishGuards env st) eqn:G;
  [ rewrite (handleAiPolish_runs env st G)
  | unfold passesPolishGuards in G;
    destruct (truthy (trim (message st))) eqn:T;
    [ destruct (truthy_opt (VITE_GOOGLE_GENERATIVE_AI_API_KEY env)) eqn:K;
      [ discriminate G | rewrite (handleAiPolish_no_key env st T K) ]
    | rewrite (handleAiPolish_blank env st T) ] ].

(** X1.  No exception escapes either handler, whatever the services
    answer: both always complete normally. *)
Theorem handlers_never_throw (env : Env) (st : FormState) :
  fst (invoke handleSubmit env st) = Normal tt
  /\ fst (invoke handleAiPolish env st) = Normal tt.
Proof.
  split.
  - destruct (passesValidation st) eqn:V.
    + rewrite (handleSubmit_runs env st V). reflexivity.
    + rewrite (handleSubmit_rejects env st V). reflexivity.
  - polish_cases env st; reflexivity.
Qed.

(** The record of calls of one submission. *)
Lemma handleSubmit_calls (env : Env) (st : FormState) :
  calls (after handleSubmit env st)
  = if passesValidation st then
      storeWrite env st
      :: match storeAnswer env st with
         | Normal _ => [emailSend env st]
         | Throw _ => []
         end
    else [].
Proof. submit_cases env st; reflexivity. Qed.

(** X2.  The calls of one submission are exactly these: none when
    validation fails; otherwise the store write, followed by the email
    send when and only when the store write succeeded.  There is no
    retry and no other call. *)
Theorem submit_calls_exact (env : Env) (st : FormState) :
  calls (after handleSubmit env st)
  = if passesValidation st then
      storeWrite env st
      :: match storeAnswer env st with
         | Normal _ => [emailSend env st]
         | Throw _ => []
         end
    else [].
Proof. exact (handleSubmit_calls env st). Qed.

(** X3.  The model is called exactly when the message is not blank and
    the API key is a non-empty string, and then exactly once, with that
    key, the model name and the prompt built from the message. *)
Theorem polish_calls_exact (env : Env) (st : FormState) :
  calls (after handleAiPolish env st)
  = if negb (blank (message st))
       && truthy_opt (VITE_GOOGLE_GENERATIVE_AI_API_KEY env)
    then [GenerateContent (VITE_GOOGLE_GENERATIVE_AI_API_KEY env)
            (lit "gemini-pro") (polishPrompt (message st))]
    else [].
Proof.
  rewrite <- truthy_trim. fold (passesPolishGuards env st).
  polish_cases env st; reflexivity.
Qed.

(** X4.  The polish action leaves name, email and isSubmitting alone,
    does not touch the submit event, and makes no store write and no
    email send, on every path. *)
Theorem polish_frame (env : Env) (st : FormState) :
  name (form (after handleAiPolish env st)) = name st
  /\ email (form (after handleAiPolish env st)) = email st
  /\ isSubmitting (form (after handleAiPolish env st)) = isSubmitting st
  /\ defaultPrevented (after handleAiPolish env st) = false
  /\ forallb (fun c => negb (is_store_write c) && negb (is_email_send c))
       (calls (after handleAiPolish env st)) = true.
Proof.
  polish_cases env st.
  - cbn [snd form outbound calls defaultPrevented map fst forallb].
    destruct (polishAnswer env st) as [r|e].
    + destruct (response_text r) as [txt|e].
      * destruct (truthy txt); repeat split.
      * repeat split.
    + repeat split.
  - repeat split.
  - repeat split.
Qed.

(** X5.  The submit action always suppresses the form's default
    navigation, even when it rejects the input; it leaves isPolishing
    alone and never calls the model. *)
Theorem submit_frame (env : Env) (st : FormState) :
  defaultPrevented (after handleSubmit env st) = true
  /\ isPolishing (form (after handleSubmit env st)) = isPolishing st
  /\ forallb (fun c => negb (is_model_call c))
       (calls (after handleSubmit env st)) = true.
Proof. submit_cases env st; repeat split. Qed.

(** X6.  Whatever a submission hands to the store or to the mail relay
    has a name, an email and a message that are not empty and have no
    white space left to trim; the store write goes to "messages". *)
Theorem services_receive_clean_fields (env : Env) (st : FormState) (c : Call) :
  In c (calls (after handleSubmit env st)) -> cleanCall c.
Proof.
  rewrite handleSubmit_calls.
  destruct (passesValidation st) eqn:V; [|intros []].
  apply passesValidation_true in V. destruct V as (Hn & He & Hm).
  assert (D : cleanCall (storeWrite env st)).
  { cbn. repeat split; try apply trim_idempotent; assumption. }
  assert (M : cleanCall (emailSend env st)).
  { cbn. repeat split; try apply trim_idempotent; assumption. }
  intros [<-|H]; [exact D|].
  destruct (storeAnswer env st); [|destruct H].
  destruct H as [<-|[]]. exact M.
Qed.

Lemma services_receive_clean_fields_witness :
  In (storeWrite envAllOk filledState)
     (calls (after handleSubmit envAllOk filledState))
  /\ cleanCall (storeWrite envAllOk filledState).
Proof.
  assert (H : In (storeWrite envAllOk filledState)
                 (calls (after handleSubmit envAllOk filledState)))
    by (left; reflexivity).
  split; [exact H|].
  exact (services_receive_clean_fields envAllOk filledState _ H).
Defined.

(** X7.  When the error thrown carries no message, the form a failed
    submission leaves is the same whether the store write failed or the
    store write succeeded and the email send failed: nothing on screen
    tells whether the document was stored. *)
Theorem failure_hides_which_call_failed
    (env1 env2 : Env) (st : FormState) (e1 e2 : Thrown) :
  passesValidation st = true ->
  storeAnswer env1 st = Throw e1 ->
  storeAnswer env2 st = Normal tt -> emailAnswer env2 st = Throw e2 ->
  truthy_opt (err_message e1) = false ->
  truthy_opt (err_message e2) = false ->
  form (after handleSubmit env1 st) = form (after handleSubmit env2 st)
  /\ render (form (after handleSubmit env1 st))
     = render (form (after handleSubmit env2 st))
  /\ calls (after handleSubmit env1 st) = [storeWrite env1 st]
  /\ calls (after handleSubmit env2 st) = [storeWrite env2 st; emailSend env2 st].
Proof.
  intros V S1 S2 E2 M1 M2.
  assert (F : form (after handleSubmit env1 st)
              = form (after handleSubmit env2 st)).
  { unfold after.
    rewrite (handleSubmit_runs env1 st V), (handleSubmit_runs env2 st V).
    rewrite S1, S2, E2. cbn [snd form].
    rewrite (or_else_no_message _ _ M1), (or_else_no_message _ _ M2).
    reflexivity. }
  split; [exact F|]. split; [now rewrite F|].
  rewrite !handleSubmit_calls, V, S1, S2. split; reflexivity.
Qed.

Lemma failure_hides_which_call_failed_witness :
  passesValidation filledState = true
  /\ storeAnswer envStoreDown filledState = Throw bareError
  /\ emailAnswer envMailBare filledState = Throw bareError
  /\ form (after handleSubmit envStoreDown filledState)
     = form (after handleSubmit envMailBare filledState).
Proof.
  split; [reflexivity|]. split; [reflexivity|]. split; [reflexivity|].
  exact (proj1 (failure_hides_which_call_failed envStoreDown envMailBare
                  filledState bareError bareError
                  eq_refl eq_refl eq_refl eq_refl eq_refl eq_refl)).
Defined.

(** X8.  A submission always ends with a status line on screen; the line
    has the success colour when validation passed and both calls
    succeeded, and the error colour in every other case. *)
Theorem submit_always_shows_status (env : Env) (st : FormState) :
  exists txt,
    statusLine (render (form (after handleSubmit env st)))
    = Some (mkStatusLine
              (if passesValidation st && isNormal (storeAnswer env st)
                  && isNormal (emailAnswer env st)
               then lit "text-sm text-emerald-600"
               else lit "text-sm text-rose-600")
              txt).
Proof.
  submit_cases env st; cbn [snd form render statusLine status type text];
    eexists; reflexivity.
Qed.

(** X10.  The answer is tested before it is trimmed: when the model
    answers with white space only, the polish action empties the message
    and still reports success; the polish button is then disabled and a
    submission of the form is rejected. *)
Theorem polish_whitespace_answer_empties_message
    (env : Env) (st : FormState) (result : GenerateContentResult)
    (polishedText : jsstring) :
  blank (message st) = false ->
  truthy_opt (VITE_GOOGLE_GENERATIVE_AI_API_KEY env) = true ->
  polishAnswer env st = Normal result ->
  response_text result = Normal polishedText ->
  polishedText <> [] -> blank polishedText = true ->
  message (form (after handleAiPolish env st)) = []
  /\ status (form (after handleAiPolish env st))
     = Some (mkStatus success (lit "Message polished!"))
  /\ polishButton_disabled (render (form (after handleAiPolish env st))) = true
  /\ passesValidation (form (after handleAiPolish env st)) = false.
Proof.
  intros B K A R N W.
  assert (G : passesPolishGuards env st = true)
    by (apply passesPolishGuards_true; auto).
  apply truthy_cons in N. apply trim_blank in W.
  unfold after. rewrite (handleAiPolish_runs env st G), A, R, N, W.
  cbn [snd form message status render polishButton_disabled isPolishing].
  repeat split.
  unfold passesValidation. cbn [message].
  apply andb_false_iff. right. reflexivity.
Qed.

Lemma polish_whitespace_answer_empties_message_witness :
  blank (message filledState) = false
  /\ polishAnswer envBlankAnswer filledState = Normal (okResult "   ")
  /\ message (form (after handleAiPolish envBlankAnswer filledState)) = []
  /\ status (form (after handleAiPolish envBlankAnswer filledState))
     = Some (mkStatus success (lit "Message polished!")).
Proof.
  split; [reflexivity|]. split; [reflexivity|].
  assert (N : lit "   " <> []) by discriminate.
  destruct (polish_whitespace_answer_empties_message envBlankAnswer filledState
              (okResult "   ") (lit "   ")
              eq_refl eq_refl eq_refl eq_refl N eq_refl) as (M & S & _).
  split; [exact M | exact S].
Defined.

(** X11.  After a polish that was answered with a non-blank text, the
    message on screen has nothing left to trim, and a submission of that
    form (name and email filled in) stores and mails exactly the text on
    screen. *)
Theorem polished_message_is_submitted_verbatim
    (env env' : Env) (st : FormState) (result : GenerateContentResult)
    (polishedText : jsstring) :
  blank (message st) = false ->
  truthy_opt (VITE_GOOGLE_GENERATIVE_AI_API_KEY env) = true ->
  polishAnswer env st = Normal result ->
  response_text result = Normal polishedText ->
  blank polishedText = false ->
  trim (name st) <> [] -> trim (email st) <> [] ->
  message (form (after handleAiPolish env st)) = trim polishedText
  /\ trimmed (message (form (after handleAiPolish env st)))
  /\ hd_error (calls (after handleSubmit env' (form (after handleAiPolish env st))))
     = Some (AddDoc (lit "messages")
               (mkDoc (trim (name st)) (trim (email st))
                      (message (form (after handleAiPolish env st)))
                      (toISOString (clock env')))).
Proof.
  intros B K A R W Hn He.
  assert (G : passesPolishGuards env st = true)
    by (apply passesPolishGuards_true; auto).
  assert (N : truthy polishedText = true).
  { destruct polishedText; [discriminate W | reflexivity]. }
  assert (F : form (after handleAiPolish env st)
              = mkForm (name st) (email st) (trim polishedText) false
                  (isSubmitting st)
                  (Some (mkStatus success (lit "Message polished!")))).
  { unfold after. rewrite (handleAiPolish_runs env st G), A, R, N.
    reflexivity. }
  rewrite F. cbn [message]. split; [reflexivity|].
  split; [apply trim_idempotent|].
  rewrite handleSubmit_calls.
  assert (V : passesValidation
                (mkForm (name st) (email st) (trim polishedText) false
                   (isSubmitting st)
                   (Some (mkStatus success (lit "Message polished!"))))
              = true).
  { apply passesValidation_true. cbn [name email message].
    repeat split; try assumption.
    rewrite trim_idempotent. intro E. apply trim_blank in E. congruence. }
  rewrite V. cbn [hd_error]. unfold storeWrite, submittedDoc.
  cbn [name email message]. rewrite trim_idempotent. reflexivity.
Qed.

Lemma polished_message_is_submitted_verbatim_witness :
  blank (message filledState) = false
  /\ message (form (after handleAiPolish envAllOk filledState))
     = lit "Dear team, thank you."
  /\ hd_error (calls (after handleSubmit envAllOk
                        (form (after handleAiPolish envAllOk filledState))))
     = Some (AddDoc (lit "messages")
               (mkDoc (lit "Ada") (lit "ada@example.org")
                      (lit "Dear team, thank you.")
                      (lit "2023-11-14T22:13:20.000Z"))).
Proof.
  split; [reflexivity|].
  assert (Hn : trim (name filledState) <> []) by (vm_compute; discriminate).
  assert (He : trim (email filledState) <> []) by (vm_compute; discriminate).
  destruct (polished_message_is_submitted_verbatim envAllOk envAllOk filledState
              (okResult "  Dear team, thank you.  ")
              (lit "  Dear team, thank you.  ")
              eq_refl eq_refl eq_refl eq_refl eq_refl Hn He) as (M & _ & H).
  split; [rewrite M; reflexivity|]. rewrite H, M. reflexivity.
Defined.

(** X12.  After a successful submission the form is empty, so submitting
    it again at once sends nothing: no store write, no email, only the
    "fill in all fields" error. *)
Theorem resubmit_after_success_sends_nothing
    (env env' : Env) (st : FormState) :
  passesValidation st = true ->
  storeAnswer env st = Normal tt -> emailAnswer env st = Normal tt ->
  calls (after handleSubmit env' (form (after handleSubmit env st))) = []
  /\ status (form (after handleSubmit env' (form (after handleSubmit env st))))
     = Some (mkStatus error (lit "Please fill in all fields.")).
Proof.
  intros V S E.
  assert (F : form (after handleSubmit env st)
              = mkForm [] [] [] (isPolishing st) false
                  (Some (mkStatus success (lit "Message sent successfully!")))).
  { unfold after. rewrite (handleSubmit_runs env st V), S, E. reflexivity. }
  rewrite F. unfold after. rewrite handleSubmit_rejects by reflexivity.
  split; reflexivity.
Qed.

Lemma resubmit_after_success_sends_nothing_witness :
  passesValidation filledState = true
  /\ calls (after handleSubmit envStoreDown
              (form (after handleSubmit envAllOk filledState))) = [].
Proof.
  split; [reflexivity|].
  exact (proj1 (resubmit_after_success_sends_nothing envAllOk envStoreDown
                  filledState eq_refl eq_refl eq_refl)).
Defined.

(** X13.  After a failed submission the send button is enabled again and
    the three fields are kept, so submitting again starts with a store
    write of the same name, email and message, also when the first store
    write had succeeded and only the email had failed: the message is
    then stored a second time. *)
Theorem retry_after_failure_writes_again
    (env env' : Env) (st : FormState) (e : Thrown) :
  passesValidation st = true ->
  storeAnswer env st = Throw e
  \/ (storeAnswer env st = Normal tt /\ emailAnswer env st = Throw e) ->
  submitButton_disabled (render (form (after handleSubmit env st))) = false
  /\ hd_error (calls (after handleSubmit env' (form (after handleSubmit env st))))
     = Some (AddDoc (lit "messages")
               (mkDoc (trim (name st)) (trim (email st)) (trim (message st))
                      (toISOString (clock env')))).
Proof.
  intros V H.
  assert (F : exists s,
             form (after handleSubmit env st)
             = mkForm (name st) (email st) (message st) (isPolishing st)
                 false s).
  { unfold after. rewrite (handleSubmit_runs env st V).
    destruct H as [S | [S E]]; [rewrite S | rewrite S, E];
      eexists; reflexivity. }
  destruct F as [s F]. rewrite F. split; [reflexivity|].
  rewrite handleSubmit_calls.
  assert (V' : passesValidation
                 (mkForm (name st) (email st) (message st) (isPolishing st)
                    false s) = true) by exact V.
  rewrite V'. reflexivity.
Qed.

Lemma retry_after_failure_writes_again_witness :
  passesValidation filledState = true
  /\ storeAnswer envMailDown filledState = Normal tt
  /\ emailAnswer envMailDown filledState = Throw quotaError
  /\ calls (after handleSubmit envMailDown filledState)
     = [storeWrite envMailDown filledState; emailSend envMailDown filledState]
  /\ hd_error (calls (after handleSubmit envAllOk
                        (form (after handleSubmit envMailDown filledState))))
     = Some (storeWrite envAllOk filledState).
Proof.
  split; [reflexivity|]. split; [reflexivity|]. split; [reflexivity|].
  split; [reflexivity|].
  exact (proj2 (retry_after_failure_writes_again envMailDown envAllOk
                  filledState quotaError eq_refl
                  (or_intror (conj eq_refl eq_refl)))).
Defined.

(** X14.  A click on the enabled polish button always has a visible
    outcome: with no usable API key it shows the configuration error and
    calls nothing; with one it calls the model exactly once and returns
    with the button's spinner off. *)
Theorem enabled_polish_click_outcome (env : Env) (st : FormState) :
  polishButton_disabled (render st) = false ->
  (truthy_opt (VITE_GOOGLE_GENERATIVE_AI_API_KEY env) = false
   /\ calls (after handleAiPolish env st) = []
   /\ status (form (after handleAiPolish env st))
      = Some (mkStatus error (lit "AI API key not configured.")))
  \/ (truthy_opt (VITE_GOOGLE_GENERATIVE_AI_API_KEY env) = true
      /\ calls (after handleAiPolish env st) = [polishCall env st]
      /\ polishButton_icon (render (form (after handleAiPolish env st)))
         = Sparkles).
Proof.
  cbn [render polishButton_disabled]. intro D.
  apply orb_false_iff in D. destruct D as [P T].
  apply negb_false_iff in T.
  destruct (truthy_opt (VITE_GOOGLE_GENERATIVE_AI_API_KEY env)) eqn:K.
  - right. split; [reflexivity|].
    assert (G : passesPolishGuards env st = true)
      by (unfold passesPolishGuards; rewrite T, K; reflexivity).
    unfold after. rewrite (handleAiPolish_runs env st G).
    split; [reflexivity|]. cbn [snd form].
    destruct (polishAnswer env st) as [r|e]; [|reflexivity].
    destruct (response_text r) as [txt|e]; [|reflexivity].
    destruct (truthy txt); reflexivity.
  - left. split; [reflexivity|].
    unfold after. rewrite (handleAiPolish_no_key env st T K).
    split; reflexivity.
Qed.

Lemma enabled_polish_click_outcome_witness :
  polishButton_disabled (render filledState) = false
  /\ calls (after handleAiPolish envNoKey filledState) = [].
Proof.
  split; [reflexivity|].
  destruct (enabled_polish_click_outcome envNoKey filledState eq_refl)
    as [(_ & C & _) | (K & _)]; [exact C | discriminate K].
Defined.

(** * Sessions *)

(** What one event adds to the record of calls. *)
Lemma dispatch_calls (env : Env) (ev : UiEvent) (w : World) :
  exists blk,
    calls (dispatch env ev w) = calls w ++ blk
    /\ (blk = []
        \/ (passesPolishGuards env (form w) = true
            /\ blk = [polishCall env (form w)])
        \/ (passesValidation (form w) = true
            /\ (blk = [storeWrite env (form w)]
                \/ blk = [storeWrite env (form w); emailSend env (form w)]))).
Proof.
  destruct ev as [v|v|v| |]; cbn [dispatch].
  - exists []. rewrite app_nil_r. split; [reflexivity | left; reflexivity].
  - exists []. rewrite app_nil_r. split; [reflexivity | left; reflexivity].
  - exists []. rewrite app_nil_r. split; [reflexivity | left; reflexivity].
  - destruct (polishButton_disabled (render (form w))).
    { exists []. rewrite app_nil_r. split; [reflexivity | left; reflexivity]. }
    destruct (passesPolishGuards env (form w)) eqn:G.
    + exists [polishCall env (form w)].
      rewrite (handleAiPolish_runs_at (form w) env w G).
      split; [|right; left; split; reflexivity].
      unfold calls. cbn [snd outbound]. rewrite map_app. reflexivity.
    + exists []. rewrite app_nil_r. split; [|left; reflexivity].
      unfold passesPolishGuards in G.
      destruct (truthy (trim (message (form w)))) eqn:T.
      * destruct (truthy_opt (VITE_GOOGLE_GENERATIVE_AI_API_KEY env)) eqn:K;
          [discriminate G|].
        rewrite (handleAiPolish_no_key_at (form w) env w T K). reflexivity.
      * rewrite (handleAiPolish_blank_at (form w) env w T). reflexivity.
  - destruct (submitButton_disabled (render (form w))).
    { exists []. rewrite app_nil_r. split; [reflexivity | left; reflexivity]. }
    destruct (passesValidation (form w)) eqn:V.
    + rewrite (handleSubmit_runs_at (form w) env _ V). cbv zeta.
      cbn [form outbound].
      destruct (storeAnswer env (form w)) as [[]|e].
      * destruct (emailAnswer env (form w)) as [[]|e];
          exists [storeWrite env (form w); emailSend env (form w)];
          (split; [|right; right; split; [reflexivity | right; reflexivity]]);
          unfold calls; cbn [snd outbound]; rewrite <- app_assoc, map_app;
          reflexivity.
      * exists [storeWrite env (form w)].
        split; [|right; right; split; [reflexivity | left; reflexivity]].
        unfold calls. cbn [snd outbound]. rewrite map_app. reflexivity.
    + exists []. rewrite app_nil_r. split; [|left; reflexivity].
      rewrite (handleSubmit_rejects_at (form w) env _ V). reflexivity.
Qed.

(** What one event does to the two flags. *)
Lemma dispatch_flags (env : Env) (ev : UiEvent) (w : World) :
  isPolishing (form w) = false -> isSubmitting (form w) = false ->
  isPolishing (form (dispatch env ev w)) = false
  /\ isSubmitting (form (dispatch env ev w)) = false.
Proof.
  intros P S. destruct ev as [v|v|v| |]; cbn [dispatch].
  - split; first [assumption | reflexivity].
  - split; first [assumption | reflexivity].
  - split; first [assumption | reflexivity].
  - destruct (polishButton_disabled (render (form w))); [split; first [assumption | reflexivity]|].
    destruct (passesPolishGuards env (form w)) eqn:G.
    + rewrite (handleAiPolish_runs_at (form w) env w G). cbv zeta.
      cbn [snd form].
      destruct (polishAnswer env (form w)) as [r|e]; [|split; first [assumption | reflexivity]].
      destruct (response_text r) as [txt|e]; [|split; first [assumption | reflexivity]].
      destruct (truthy txt); split; first [assumption | reflexivity].
    + unfold passesPolishGuards in G.
      destruct (truthy (trim (message (form w)))) eqn:T.
      * destruct (truthy_opt (VITE_GOOGLE_GENERATIVE_AI_API_KEY env)) eqn:K;
          [discriminate G|].
        rewrite (handleAiPolish_no_key_at (form w) env w T K).
        split; first [assumption | reflexivity].
      * rewrite (handleAiPolish_blank_at (form w) env w T). split; first [assumption | reflexivity].
  - destruct (submitButton_disabled (render (form w))); [split; first [assumption | reflexivity]|].
    destruct (passesValidation (form w)) eqn:V.
    + rewrite (handleSubmit_runs_at (form w) env _ V). cbv zeta.
      cbn [form outbound].
      destruct (storeAnswer env (form w)) as [[]|e].
      * destruct (emailAnswer env (form w)) as [[]|e]; split;
          first [assumption | reflexivity].
      * split; first [assumption | reflexivity].
    + rewrite (handleSubmit_rejects_at (form w) env _ V). split; first [assumption | reflexivity].
Qed.

(** X15.  Whatever the user does and whatever the services answer, after
    every event of a session both in-flight flags are down again: the
    send button is never left disabled, and the polish button is disabled
    only because the message is blank. *)
Theorem session_flags_stay_down (evs : list (Env * UiEvent)) :
  isPolishing (form (session evs initialWorld)) = false
  /\ isSubmitting (form (session evs initialWorld)) = false
  /\ submitButton_disabled (render (form (session evs initialWorld))) = false
  /\ polishButton_disabled (render (form (session evs initialWorld)))
     = blank (message (form (session evs initialWorld))).
Proof.
  assert (Gen : forall w,
             isPolishing (form w) = false -> isSubmitting (form w) = false ->
             isPolishing (form (session evs w)) = false
             /\ isSubmitting (form (session evs w)) = false).
  { induction evs as [|[env ev] evs IH]; intros w P S; cbn [session].
    - split; assumption.
    - destruct (dispatch_flags env ev w P S) as [P' S']. apply IH; assumption. }
  destruct (Gen initialWorld eq_refl eq_refl) as [P S].
  split; [exact P|]. split; [exact S|]. split; [exact S|].
  cbn [render polishButton_disabled]. rewrite P, truthy_trim, negb_involutive.
  reflexivity.
Qed.


(** Appending what one event adds keeps every email send right after a
    store write of the document it repeats. *)
Lemma mails_follow_writes_app (l blk : list Call) :
  (forall pre c post,
      l = pre ++ c :: post -> is_email_send c = true ->
      exists pre' doc,
        pre = pre' ++ [AddDoc (lit "messages") doc] /\ mailsDocument c doc) ->
  blk = []
  \/ (exists c, blk = [c] /\ is_email_send c = false)
  \/ (exists doc c2,
        blk = [AddDoc (lit "messages") doc; c2] /\ mailsDocument c2 doc) ->
  forall pre c post,
    l ++ blk = pre ++ c :: post -> is_email_send c = true ->
    exists pre' doc,
      pre = pre' ++ [AddDoc (lit "messages") doc] /\ mailsDocument c doc.
Proof.
  intros Inv Shape pre c post E Hc.
  apply app_eq_app in E. destruct E as [m [[E1 E2] | [E1 E2]]].
  - destruct m as [|a m].
    + cbn [app] in E2.
      destruct Shape as [-> | [(c1 & -> & N) | (doc & c2 & -> & _)]];
        inversion E2; subst; cbn in Hc; congruence.
    + cbn [app] in E2. inversion E2; subst a.
      exact (Inv pre c m E1 Hc).
  - destruct Shape as [-> | [(c1 & -> & N) | (doc & c2 & -> & D)]].
    + destruct m; discriminate E2.
    + destruct m as [|a [|b m]]; inversion E2; subst; congruence.
    + destruct m as [|a [|b m]]; inversion E2; subst.
      * cbn in Hc. discriminate Hc.
      * exists l, doc. split; [reflexivity | exact D].
      * destruct m; discriminate.
Qed.

(** X16.  In the record of calls of any session, every email send comes
    immediately after a store write to "messages" of a document with the
    same name, email and message: no email leaves without its document
    having been handed to the store just before. *)
Theorem session_mails_follow_writes (evs : list (Env * UiEvent)) :
  forall pre c post,
    calls (session evs initialWorld) = pre ++ c :: post ->
    is_email_send c = true ->
    exists pre' doc,
      pre = pre' ++ [AddDoc (lit "messages") doc] /\ mailsDocument c doc.
Proof.
  assert (Gen : forall w,
    (forall pre c post,
        calls w = pre ++ c :: post -> is_email_send c = true ->
        exists pre' doc,
          pre = pre' ++ [AddDoc (lit "messages") doc] /\ mailsDocument c doc) ->
    forall pre c post,
      calls (session evs w) = pre ++ c :: post -> is_email_send c = true ->
      exists pre' doc,
        pre = pre' ++ [AddDoc (lit "messages") doc] /\ mailsDocument c doc).
  { induction evs as [|[env ev] evs IH]; intros w Inv; cbn [session];
      [exact Inv|].
    apply IH.
    destruct (dispatch_calls env ev w) as (blk & -> & Shape).
    apply (mails_follow_writes_app (calls w) blk Inv).
    destruct Shape as [-> | [[_ ->] | [_ [-> | ->]]]].
    - left; reflexivity.
    - right; left. eexists; split; reflexivity.
    - right; left. eexists; split; reflexivity.
    - right; right. eexists _, _. split; [reflexivity|].
      cbn. repeat split. }
  apply Gen. intros pre c post E. destruct pre; discriminate E.
Qed.

Lemma session_mails_follow_writes_witness :
  calls (session fillAndSend initialWorld)
  = [ polishCall envAllOk filledState; storeWrite envMailDown polishedState ]
    ++ emailSend envMailDown polishedState
    :: [ storeWrite envAllOk polishedState; emailSend envAllOk polishedState ]
  /\ exists pre' doc,
       [ polishCall envAllOk filledState; storeWrite envMailDown polishedState ]
       = pre' ++ [AddDoc (lit "messages") doc]
       /\ doc_message doc = lit "Dear team, thank you.".
Proof.
  assert (E : calls (session fillAndSend initialWorld)
              = [ polishCall envAllOk filledState;
                  storeWrite envMailDown polishedState ]
                ++ emailSend envMailDown polishedState
                :: [ storeWrite envAllOk polishedState;
                     emailSend envAllOk polishedState ])
    by (vm_compute; reflexivity).
  split; [exact E|].
  destruct (session_mails_follow_writes fillAndSend _ _ _ E eq_refl)
    as (pre' & doc & P & D).
  exists pre', doc. split; [exact P|].
  destruct D as (_ & _ & D). rewrite <- D. reflexivity.
Defined.

(** One event adds only calls the services may be handed. *)
Lemma dispatch_good_calls (env : Env) (ev : UiEvent) (w : World) :
  Forall goodCall (calls w) -> Forall goodCall (calls (dispatch env ev w)).
Proof.
  intro Inv. destruct (dispatch_calls env ev w) as (blk & -> & Shape).
  apply Forall_app. split; [exact Inv|].
  destruct Shape as [-> | [[G ->] | [V S]]].
  - apply Forall_nil.
  - apply passesPolishGuards_true in G. destruct G as [B K].
    apply Forall_cons; [|apply Forall_nil]. cbn. split; [exact K|]. split; [reflexivity|].
    exists (message (form w)). split; [exact B | reflexivity].
  - apply passesValidation_true in V. destruct V as (Hn & He & Hm).
    assert (D : goodCall (storeWrite env (form w))).
    { cbn. repeat split; try apply trim_idempotent; assumption. }
    assert (M : goodCall (emailSend env (form w))).
    { cbn. repeat split; try apply trim_idempotent; assumption. }
    destruct S as [-> | ->].
    + apply Forall_cons; [exact D | apply Forall_nil].
    + apply Forall_cons; [exact D|].
      apply Forall_cons; [exact M | apply Forall_nil].
Qed.

(** X17.  In any session, every call handed to a service is in order: a
    model call carries a usable key, the model name and the prompt built
    from a message that was not blank; a store write goes to "messages"
    and, like every email send, carries a name, an email and a message
    that are not empty and have nothing left to trim. *)
Theorem session_calls_are_good (evs : list (Env * UiEvent)) (c : Call) :
  In c (calls (session evs initialWorld)) -> goodCall c.
Proof.
  assert (Gen : forall w, Forall goodCall (calls w) ->
                          Forall goodCall (calls (session evs w))).
  { induction evs as [|[env ev] evs IH]; intros w Inv; cbn [session];
      [exact Inv|].
    apply IH, dispatch_good_calls, Inv. }
  intro H. assert (F := Gen initialWorld (Forall_nil _)).
  rewrite Forall_forall in F. exact (F c H).
Qed.

Lemma session_calls_are_good_witness :
  In (polishCall envAllOk filledState) (calls (session fillAndSend initialWorld))
  /\ goodCall (polishCall envAllOk filledState).
Proof.
  assert (E : calls (session fillAndSend initialWorld)
              = [ polishCall envAllOk filledState;
                  storeWrite envMailDown polishedState;
                  emailSend envMailDown polishedState;
                  storeWrite envAllOk polishedState;
                  emailSend envAllOk polishedState ])
    by (vm_compute; reflexivity).
  assert (H : In (polishCall envAllOk filledState)
                 (calls (session fillAndSend initialWorld)))
    by (rewrite E; left; reflexivity).
  split; [exact H|].
  exact (session_calls_are_good fillAndSend _ H).
Defined.

(** * The timestamp of a stored document *)

(** X18.  When the clock reads a time from year 0 to year 9999, the
    createdAt of the document a submission hands to the store is a
    well-formed UTC timestamp, YYYY-MM-DDTHH:mm:ss.sssZ, with a month from
    01 to 12, a day from 01 to 31, an hour up to 23 and minutes and
    seconds up to 59. *)
Theorem stored_createdAt_is_iso_timestamp
    (env : Env) (st : FormState) (path : jsstring) (doc : MessageDoc) :
  (-62167219200000 <= clock env < 253402300800000)%Z ->
  In (AddDoc path doc) (calls (after handleSubmit env st)) ->
  createdAt doc = toISOString (clock env)
  /\ List.length (createdAt doc) = 24
  /\ isoTimestamp (createdAt doc) = true.
Proof.
  intros R H. rewrite handleSubmit_calls in H.
  destruct (passesValidation st); [|destruct H].
  assert (E : createdAt doc = toISOString (clock env)).
  { destruct H as [H|H].
    - unfold storeWrite in H. inversion H. reflexivity.
    - destruct (storeAnswer env st); [|destruct H].
      destruct H as [H|[]]. discriminate H. }
  apply YearFromTime_four_digits in R.
  rewrite E. split; [reflexivity|].
  split; [apply toISOString_length, R | apply toISOString_isoTimestamp, R].
Qed.

Lemma stored_createdAt_is_iso_timestamp_witness :
  (-62167219200000 <= clock envAllOk < 253402300800000)%Z
  /\ In (storeWrite envAllOk filledState)
        (calls (after handleSubmit envAllOk filledState))
  /\ createdAt (submittedDoc envAllOk filledState)
     = lit "2023-11-14T22:13:20.000Z"
  /\ isoTimestamp (createdAt (submittedDoc envAllOk filledState)) = true.
Proof.
  assert (R : (-62167219200000 <= clock envAllOk < 253402300800000)%Z)
    by (cbn; lia).
  assert (H : In (storeWrite envAllOk filledState)
                 (calls (after handleSubmit envAllOk filledState)))
    by (left; reflexivity).
  split; [exact R|]. split; [exact H|].
  destruct (stored_createdAt_is_iso_timestamp envAllOk filledState
              (lit "messages") (submittedDoc envAllOk filledState) R H)
    as (E & _ & I).
  split; [rewrite E; reflexivity | exact I].
Defined.
